(** * A shallow embedding of the LightX face-swap client ([FaceSwapAPI])

    The class [FaceSwapAPI] (utils/faceSwapApi.js) is embedded as a state and
    error monad over a [world]: the process-wide [stats] object, a clock, the
    trace of timer sleeps, the log of outgoing HTTP requests, the local file
    system and the remote services.  JavaScript numbers used for times, waits
    and the running average are modelled as exact rationals ([Q]); counters
    are natural numbers; byte buffers are lists of [Byte.byte]. *)

From Stdlib Require Import String Ascii List ZArith NArith QArith Qminmax Qfield Lia.
From Stdlib Require Import Strings.Byte.
Import ListNotations.
Open Scope string_scope.

(** ** Strings *)

(** [s.startsWith(p)] *)
Fixpoint starts_with (p s : string) : bool :=
  match p, s with
  | EmptyString, _ => true
  | String c p', String d s' => Ascii.eqb c d && starts_with p' s'
  | String _ _, EmptyString => false
  end.

(** [s.includes(p)] *)
Fixpoint includes (p s : string) : bool :=
  starts_with p s ||
  match s with
  | EmptyString => false
  | String _ s' => includes p s'
  end.

(** A JavaScript string is truthy when it is not empty. *)
Definition truthy (s : option string) : bool :=
  match s with
  | Some (String _ _) => true
  | _ => false
  end.

(** [a || d] on an optional string. *)
Definition js_or (s : option string) (d : string) : string :=
  match s with
  | Some (String c s') => String c s'
  | _ => d
  end.

(** [${n}] for a non-negative integer. *)
Fixpoint digits_of (fuel : nat) (n : N) (acc : string) : string :=
  match fuel with
  | O => acc
  | S f =>
      let acc' := String (ascii_of_N (48 + N.modulo n 10)) acc in
      let q := N.div n 10 in
      if N.eqb q 0 then acc' else digits_of f q acc'
  end.

Definition string_of_N (n : N) : string :=
  digits_of (S (N.size_nat n)) n "".

Definition string_of_Z (z : Z) : string :=
  if Z.ltb z 0 then "-" ++ string_of_N (Z.to_N (- z)) else string_of_N (Z.to_N z).

(** [array.join(sep)] *)
Fixpoint join (sep : string) (l : list string) : string :=
  match l with
  | [] => ""
  | [x] => x
  | x :: l' => x ++ sep ++ join sep l'
  end.

(** ASCII [toLowerCase()] *)
Definition lower_ascii (c : ascii) : ascii :=
  let n := nat_of_ascii c in
  if (65 <=? n)%nat && (n <=? 90)%nat then ascii_of_nat (n + 32) else c.

Fixpoint to_lower (s : string) : string :=
  match s with
  | EmptyString => EmptyString
  | String c s' => String (lower_ascii c) (to_lower s')
  end.

(** ** Configuration constants of the constructor *)

Definition MAX_RETRIES : nat := 5.
Definition POLL_INTERVAL : Q := 3000.
Definition MAX_FILE_SIZE : Z := 5 * 1024 * 1024.
Definition SUPPORTED_FORMATS : list string := ["image/jpeg"; "image/jpg"; "image/png"].

(** ** The [stats] object *)

Record stats := mkStats {
  totalRequests : nat;
  successfulSwaps : nat;
  failedSwaps : nat;
  averageProcessingTime : Q
}.

(** [resetStats()] *)
Definition reset_stats : stats := mkStats 0 0 0 0.

(** ** HTTP *)

(** The parsed JSON envelope of a LightX response (only the fields the code reads). *)
Record envelope := mkEnvelope {
  statusCode : option Z;
  message : option string;
  body_status : option string;
  body_output : option string;
  body_orderId : option string;
  body_uploadImage : option string;
  body_imageUrl : option string
}.

(** A received HTTP response. [res_json] is [None] when the body is not JSON,
    in which case [response.json()] throws. *)
Record response := mkResponse {
  res_status : Z;
  res_statusText : string;
  res_text : string;
  res_json : option envelope;
  res_bytes : list byte;
  res_contentType : option string
}.

(** [data.statusCode === code] *)
Definition code_is (c : option Z) (code : Z) : bool :=
  match c with Some z => Z.eqb z code | None => false end.

Definition res_ok (r : response) : bool :=
  Z.leb 200 (res_status r) && Z.ltb (res_status r) 300.

(** What [fetch] resolves to: a response, or a rejection (aborted by the
    timeout controller, or a network failure with its message). *)
Inductive reply :=
| Rejected (aborted : bool) (msg : string)
| Received (r : response).

(** The requests the client issues. *)
Inductive call :=
| GetImage (url : string)
| PostUploadImageUrl (size : Z) (contentType : string)
| PutUpload (url : string) (contentType : string) (contentLength : Z)
| PostFaceSwap (imageUrl styleImageUrl : string)
| PostOrderStatus (orderId : string).

(** ** Errors: an [Error] object, with whether its [name] is ["AbortError"]. *)

Record error := mkError { is_abort : bool; err_message : string }.

Definition Error (msg : string) : error := mkError false msg.

Inductive result (A : Type) :=
| Ok (a : A)
| Err (e : error).
Arguments Ok {A} a.
Arguments Err {A} e.

(** ** The world the client runs in *)

Record world := mkWorld {
  w_stats : stats;
  clock : Q;
  (** durations passed to [setTimeout] for sleeps, oldest first *)
  sleeps : list Q;
  (** requests issued, oldest first, each with the [stats] at that moment *)
  requests : list (call * stats);
  (** local file system: [fs.existsSync] / [fs.readFileSync] *)
  files : string -> option (list byte);
  (** the remote side: given how many requests were issued before and the
      request, its latency and what [fetch] resolves to *)
  server : nat -> call -> Q * reply
}.

Definition set_stats (s : stats) (w : world) : world :=
  mkWorld s (clock w) (sleeps w) (requests w) (files w) (server w).

(** ** The monad *)

Definition M (A : Type) := world -> result A * world.

Definition ret {A} (a : A) : M A := fun w => (Ok a, w).
Definition throw {A} (e : error) : M A := fun w => (Err e, w).
Definition bind {A B} (m : M A) (k : A -> M B) : M B :=
  fun w => match m w with
           | (Ok a, w') => k a w'
           | (Err e, w') => (Err e, w')
           end.

Notation "x <- m ;; k" := (bind m (fun x => k))
  (at level 61, m at next level, right associativity).
Notation "m ;;; k" := (bind m (fun _ => k))
  (at level 61, right associativity).

(** [try { m } catch (e) { h }] *)
Definition try_catch {A} (m : M A) (h : error -> M A) : M A :=
  fun w => match m w with
           | (Ok a, w') => (Ok a, w')
           | (Err e, w') => h e w'
           end.

(** Run [m] and report its outcome without propagating it (used for the
    two branches of [Promise.all]). *)
Definition settle {A} (m : M A) : M (result A) :=
  fun w => let '(r, w') := m w in (Ok r, w').

Definition get_stats : M stats := fun w => (Ok (w_stats w), w).
Definition put_stats (s : stats) : M unit := fun w => (Ok tt, set_stats s w).
Definition now : M Q := fun w => (Ok (clock w), w).

(** [await new Promise((resolve) => setTimeout(resolve, d))] *)
Definition sleep (d : Q) : M unit :=
  fun w => (Ok tt, mkWorld (w_stats w) (clock w + d) (sleeps w ++ [d])
                           (requests w) (files w) (server w)).

(** [await fetch(...)]: the request is logged, the clock advances by the
    latency, and a rejection is thrown. *)
Definition fetch (c : call) : M response :=
  fun w =>
    let '(lat, rp) := server w (length (requests w)) c in
    let w' := mkWorld (w_stats w) (clock w + lat) (sleeps w)
                      (requests w ++ [(c, w_stats w)]) (files w) (server w) in
    match rp with
    | Rejected ab msg => (Err (mkError ab msg), w')
    | Received r => (Ok r, w')
    end.

(** [await response.json()] *)
Definition json (r : response) : M envelope :=
  match res_json r with
  | Some e => ret e
  | None => throw (mkError false "Unexpected token in JSON")
  end.

(** ** Node's [path.extname] (posix) *)

(** The backward scan of [path.extname]: [i] is the index of the head of
    [rcs], which holds the characters of the path from index [i] down to 0.
    Returns [(startPart, startDot, end, preDotState)]; [None] stands for -1. *)
Fixpoint ext_loop (i : nat) (rcs : list ascii) (matchedSlash : bool)
    (startPart : nat) (startDot end_ : option nat) (preDotState : Z)
  : nat * option nat * option nat * Z :=
  match rcs with
  | [] => (startPart, startDot, end_, preDotState)
  | c :: rest =>
      if Ascii.eqb c "/" then
        if negb matchedSlash then (S i, startDot, end_, preDotState)
        else ext_loop (pred i) rest matchedSlash startPart startDot end_ preDotState
      else
        let '(ms, e) := match end_ with
                        | None => (false, Some (S i))
                        | Some e => (matchedSlash, Some e)
                        end in
        if Ascii.eqb c "." then
          match startDot with
          | None => ext_loop (pred i) rest ms startPart (Some i) e preDotState
          | Some _ =>
              ext_loop (pred i) rest ms startPart startDot e
                (if Z.eqb preDotState 1 then preDotState else 1)
          end
        else
          ext_loop (pred i) rest ms startPart startDot e
            (match startDot with Some _ => -1 | None => preDotState end)%Z
  end.

Definition extname (p : string) : string :=
  let cs := list_ascii_of_string p in
  let '(startPart, startDot, end_, pre) :=
    ext_loop (pred (length cs)) (rev cs) true 0 None None 0 in
  match startDot, end_ with
  | Some d, Some e =>
      if Z.eqb pre 0
         || (Z.eqb pre 1 && Nat.eqb d (pred e) && Nat.eqb d (S startPart))
      then ""
      else substring d (e - d) p
  | _, _ => ""
  end.

(** ** Image validation: [_validateImageBuffer] and [_isValidImageBuffer] *)

(** The four messages [_validateImageBuffer] pushes, one constructor each. *)
Inductive violation :=
| Oversize (len : Z)
| Undersize (len : Z)
| UnsupportedFormat (contentType : string)
| CorruptData.

Definition render (v : violation) : string :=
  match v with
  | Oversize n =>
      "Image size " ++ string_of_Z n ++ " bytes exceeds maximum allowed size of "
        ++ string_of_Z MAX_FILE_SIZE ++ " bytes (5MB)"
  | Undersize n =>
      "Image size " ++ string_of_Z n ++ " bytes is too small. Minimum size is 1KB"
  | UnsupportedFormat ct =>
      "Unsupported image format: " ++ ct ++ ". Supported formats: "
        ++ join ", " SUPPORTED_FORMATS
  | CorruptData => "Invalid image file format or corrupted image data"
  end.

Definition blen (b : list byte) : Z := Z.of_nat (length b).

(** [buffer[i] === x] ([undefined] past the end compares unequal) *)
Definition byte_at (b : list byte) (i : nat) (x : byte) : bool :=
  match nth_error b i with
  | Some y => Byte.eqb y x
  | None => false
  end.

Definition isValidImageBuffer (buffer : list byte) (contentType : string) : bool :=
  if Z.ltb (blen buffer) 4 then false else
  let jpg1 := byte_at buffer 0 xff && byte_at buffer 1 xd8 && byte_at buffer 2 xff in
  let png := byte_at buffer 0 x89 && byte_at buffer 1 x50
             && byte_at buffer 2 x4e && byte_at buffer 3 x47 in
  if includes "jpeg" contentType || includes "jpg" contentType then jpg1
  else if includes "png" contentType then png
  else jpg1 || png.

(** The [errors] array, in push order. *)
Definition validateImageBuffer (imageBuffer : list byte) (contentType : string)
  : list violation :=
  (if Z.ltb MAX_FILE_SIZE (blen imageBuffer) then [Oversize (blen imageBuffer)] else [])
  ++ (if Z.ltb (blen imageBuffer) 1024 then [Undersize (blen imageBuffer)] else [])
  ++ (if existsb (String.eqb contentType) SUPPORTED_FORMATS then []
      else [UnsupportedFormat contentType])
  ++ (if isValidImageBuffer imageBuffer contentType then [] else [CorruptData]).

Definition isValid (errors : list violation) : bool :=
  match errors with [] => true | _ => false end.

Definition is_size_violation (v : violation) : bool :=
  match v with Oversize _ | Undersize _ => true | _ => false end.

(** ** Stats updates *)

Definition incr_total (s : stats) : stats :=
  mkStats (S (totalRequests s)) (successfulSwaps s) (failedSwaps s)
          (averageProcessingTime s).

Definition incr_failed (s : stats) : stats :=
  mkStats (totalRequests s) (successfulSwaps s) (S (failedSwaps s))
          (averageProcessingTime s).

(** [successfulSwaps++] then
    [averageProcessingTime = (averageProcessingTime * (successfulSwaps - 1) + totalTime) / successfulSwaps] *)
Definition record_success (totalTime : Q) (s : stats) : stats :=
  let n := S (successfulSwaps s) in
  mkStats (totalRequests s) n (failedSwaps s)
    ((averageProcessingTime s * (inject_Z (Z.of_nat n) - 1) + totalTime)
       / inject_Z (Z.of_nat n)).

Definition modify_stats (f : stats -> stats) : M unit :=
  s <- get_stats ;; put_stats (f s).

Definition read_file (p : string) : M (option (list byte)) :=
  fun w => (Ok (files w p), w).

(** ** Upload negotiation *)

(** [getUploadUrl(imageBuffer, contentType)]: returns [(uploadUrl, imageUrl)].
    [JSON.stringify(data)] is rendered by the response text it was parsed from. *)
Definition getUploadUrl (imageBuffer : list byte) (contentType : string)
  : M (string * string) :=
  try_catch
    (let validation := validateImageBuffer imageBuffer contentType in
     if negb (isValid validation) then
       throw (Error ("Image validation failed: " ++ join ", " (map render validation)))
     else
       response <- fetch (PostUploadImageUrl (blen imageBuffer) contentType) ;;
       if negb (res_ok response) then
         let errorText := res_text response in
         if Z.eqb (res_status response) 403 then
           throw (Error ("API Authentication Failed (403). Please verify your LightX API key has Face Swap permissions and your account has sufficient credits. Response: " ++ errorText))
         else if Z.eqb (res_status response) 429 then
           throw (Error ("Rate limit exceeded (429). Please wait before making additional requests. Response: " ++ errorText))
         else if Z.eqb (res_status response) 402 then
           throw (Error ("Payment required (402). Please check your account balance and billing status. Response: " ++ errorText))
         else
           throw (Error ("Failed to get upload URL: " ++ string_of_Z (res_status response) ++ " - " ++ errorText))
       else
         data <- json response ;;
         if code_is (statusCode data) 2000 && truthy (body_uploadImage data)
            && truthy (body_imageUrl data)
         then ret (js_or (body_uploadImage data) "", js_or (body_imageUrl data) "")
         else throw (Error ("Invalid upload URL response: " ++ res_text response)))
    (fun error =>
       if is_abort error then
         throw (Error "Upload URL request timed out. Please check your internet connection and try again.")
       else throw error).

(** [uploadImageToS3(uploadUrl, imageBuffer, contentType)] *)
Definition uploadImageToS3 (uploadUrl : string) (imageBuffer : list byte)
    (contentType : string) : M unit :=
  try_catch
    (response <- fetch (PutUpload uploadUrl contentType (blen imageBuffer)) ;;
     if negb (res_ok response) then
       throw (Error ("S3 upload failed: " ++ string_of_Z (res_status response)
                      ++ " - " ++ res_statusText response))
     else ret tt)
    (fun error =>
       if is_abort error then
         throw (Error "S3 upload timed out. Please try again with a smaller image or check your internet connection.")
       else throw (Error ("Failed to upload to S3: " ++ err_message error))).

(** [processImage(imageSource, isUrl)]: acquisition, then negotiation
    (validation happens inside [getUploadUrl]). *)
Definition processImage (imageSource : string) (isUrl : bool) : M string :=
  try_catch
    (acquired <-
       (if isUrl then
          imageResponse <- fetch (GetImage imageSource) ;;
          if negb (res_ok imageResponse) then
            throw (Error ("Failed to fetch image from URL: "
                          ++ string_of_Z (res_status imageResponse) ++ " - "
                          ++ res_statusText imageResponse))
          else
            ret (res_bytes imageResponse,
                 js_or (res_contentType imageResponse) "image/jpeg")
        else
          contents <- read_file imageSource ;;
          match contents with
          | None => throw (Error ("File not found: " ++ imageSource))
          | Some imageBuffer =>
              let ext := to_lower (extname imageSource) in
              if String.eqb ext ".png" then ret (imageBuffer, "image/png")
              else if String.eqb ext ".jpg" || String.eqb ext ".jpeg" then
                ret (imageBuffer, "image/jpeg")
              else
                throw (Error ("Unsupported file extension: " ++ ext
                              ++ ". Please use .jpg, .jpeg, or .png files."))
          end) ;;
     let '(imageBuffer, contentType) := acquired in
     uploadInfo <- getUploadUrl imageBuffer contentType ;;
     uploadImageToS3 (fst uploadInfo) imageBuffer contentType ;;;
     ret (snd uploadInfo))
    (fun error => throw error).

(** ** Job submission: [requestFaceSwap(sourceImageUrl, targetImageUrl)] *)

Definition requestFaceSwap (sourceImageUrl targetImageUrl : string) : M string :=
  try_catch
    (modify_stats incr_total ;;;
     response <- fetch (PostFaceSwap sourceImageUrl targetImageUrl) ;;
     if negb (res_ok response) then
       let errorText := res_text response in
       if Z.eqb (res_status response) 403 then
         throw (Error ("Face Swap API access denied (403). Please check your subscription plan and ensure Face Swap API is enabled for your account. Response: " ++ errorText))
       else if Z.eqb (res_status response) 402 then
         throw (Error ("Insufficient credits (402). Please add credits to your LightX account. Response: " ++ errorText))
       else if Z.eqb (res_status response) 400 then
         throw (Error ("Invalid request (400). Please check that both images contain clear, visible faces. Response: " ++ errorText))
       else
         throw (Error ("Face swap request failed: " ++ string_of_Z (res_status response)
                       ++ " - " ++ errorText))
     else
       data <- json response ;;
       if code_is (statusCode data) 2000 && truthy (body_orderId data)
       then ret (js_or (body_orderId data) "")
       else throw (Error ("Face swap failed: " ++ res_text response)))
    (fun error =>
       modify_stats incr_failed ;;;
       if is_abort error then
         throw (Error "Face swap request timed out. Please try again.")
       else throw error).

(** ** Status polling: [pollFaceSwapStatus(orderId)] *)

(** [Math.min(POLL_INTERVAL * Math.pow(1.5, attempt), 10000)]: the wait after
    an unsuccessful HTTP status. *)
Definition http_backoff (attempt : nat) : Q :=
  Qmin (POLL_INTERVAL * Qpower (3 # 2) (Z.of_nat attempt)) 10000.

(** [Math.min(POLL_INTERVAL * Math.pow(1.2, attempt), 8000)]: the wait in the
    [catch] block. *)
Definition catch_backoff (attempt : nat) : Q :=
  Qmin (POLL_INTERVAL * Qpower (6 # 5) (Z.of_nat attempt)) 8000.

Definition opt_is (s : option string) (lit : string) : bool :=
  match s with Some x => String.eqb x lit | None => false end.

Definition processing_failed_message : string :=
  "Face swap failed during processing. This may be due to unclear faces or incompatible images.".

(** The text the [catch] block looks for with [error.message.includes]. *)
Definition terminal_marker : string := "Face swap failed during processing".

Definition polling_failed_message : string :=
  "Status polling failed after " ++ string_of_N (N.of_nat MAX_RETRIES) ++ " attempts".

(** [(MAX_RETRIES * POLL_INTERVAL) / 1000] is the integer 15 here. *)
Definition exhausted_message : string :=
  "Face swap did not complete within " ++ string_of_N (N.of_nat MAX_RETRIES)
    ++ " attempts (" ++ string_of_Z (Qnum (Qred (inject_Z (Z.of_nat MAX_RETRIES)
                                                  * POLL_INTERVAL / 1000)))
    ++ " seconds)".

(** The [try] block of one loop iteration: [Some output] is [return output],
    [None] is [continue] / falling through to the next iteration. *)
Definition poll_attempt (orderId : string) (startTime : Q) (attempt : nat)
  : M (option string) :=
  response <- fetch (PostOrderStatus orderId) ;;
  if negb (res_ok response) then
    if Nat.eqb attempt MAX_RETRIES then throw (Error polling_failed_message)
    else sleep (http_backoff attempt) ;;; ret None
  else
    data <- json response ;;
    if code_is (statusCode data) 2000 then
        let status := body_status data in
        if opt_is status "active" && truthy (body_output data) then
          t <- now ;;
          modify_stats (record_success (t - startTime)) ;;;
          ret (Some (js_or (body_output data) ""))
        else if opt_is status "failed" then
          modify_stats incr_failed ;;;
          throw (Error processing_failed_message)
        else if opt_is status "init" then
          (if Nat.ltb attempt MAX_RETRIES then sleep POLL_INTERVAL else ret tt) ;;;
          ret None
        else
          sleep POLL_INTERVAL ;;; ret None
    else
      throw (Error ("Status check error: " ++ js_or (message data) "Unknown error")).

(** The [catch] block of one loop iteration. *)
Definition poll_catch (attempt : nat) (error : error) : M (option string) :=
  if Nat.eqb attempt MAX_RETRIES || includes terminal_marker (err_message error)
  then throw error
  else sleep (catch_backoff attempt) ;;; ret None.

(** After the loop: [failedSwaps++] and the exhaustion error. *)
Definition poll_exhausted : M string :=
  modify_stats incr_failed ;;;
  throw (Error exhausted_message).

(** [for (let attempt = ...; attempt <= MAX_RETRIES; attempt++)], with
    [fuel] bounding the remaining iterations. *)
Fixpoint poll_loop (fuel : nat) (orderId : string) (startTime : Q) (attempt : nat)
  : M string :=
  match fuel with
  | O => poll_exhausted
  | S f =>
      if Nat.leb attempt MAX_RETRIES then
        o <- try_catch (poll_attempt orderId startTime attempt) (poll_catch attempt) ;;
        match o with
        | Some output => ret output
        | None => poll_loop f orderId startTime (S attempt)
        end
      else poll_exhausted
  end.

Definition pollFaceSwapStatus (orderId : string) : M string :=
  startTime <- now ;;
  poll_loop MAX_RETRIES orderId startTime 1.

(** ** Orchestration: [performFaceSwap] *)

Definition is_err {A} (r : result A) : bool :=
  match r with Err _ => true | Ok _ => false end.

(** The two pipelines of [Promise.all([a, b])] are both started and both run
    to completion; [a_first] says whether [a] settles first. *)
Definition settle_both {A B} (a_first : bool) (a : M A) (b : M B)
  : M (result A * result B) :=
  if a_first then ra <- settle a ;; rb <- settle b ;; ret (ra, rb)
  else rb <- settle b ;; ra <- settle a ;; ret (ra, rb).

(** [Promise.all([a, b])]: resolves with both values, or rejects with the
    rejection that happens first. *)
Definition all2 {A B} (a_first : bool) (a : M A) (b : M B) : M (A * B) :=
  rs <- settle_both a_first a b ;;
  match rs with
  | (Ok x, Ok y) => ret (x, y)
  | (Err e, Ok _) => throw e
  | (Ok _, Err e) => throw e
  | (Err ea, Err eb) => throw (if a_first then ea else eb)
  end.

Definition performFaceSwap (source_first : bool) (sourceImage targetImage : string)
    (sourceIsUrl targetIsUrl : bool) : M string :=
  try_catch
    (urls <- all2 source_first (processImage sourceImage sourceIsUrl)
                                (processImage targetImage targetIsUrl) ;;
     orderId <- requestFaceSwap (fst urls) (snd urls) ;;
     resultUrl <- pollFaceSwapStatus orderId ;;
     ret resultUrl)
    (fun error => throw error).

(** ** Connectivity probe: [testConnection()]

    The 10 s timeout controller is part of what [fetch] may reject with. *)
Definition testConnection : M bool :=
  try_catch
    (response <- fetch (PostUploadImageUrl 1000 "image/jpeg") ;;
     if Z.eqb (res_status response) 200 then
       json response ;;; ret true
     else if Z.eqb (res_status response) 403 then
       ret false
     else ret false)
    (fun _ => ret false).

(** ** The callers: [SubmissionModel.validateFiles] and
    [SubmissionController.downloadImage] *)

(** A file of [req.files] as multer hands it over. *)
Record uploaded_file := mkUploadedFile {
  file_size : Z;
  file_mimetype : string
}.

(** [req.files]: the [source] and [target] fields, each an array of files
    when present. *)
Record uploaded := mkUploaded {
  up_source : option (list uploaded_file);
  up_target : option (list uploaded_file)
}.

(** Reading [.size] of [files.source[0]] when the array is empty. *)
Definition undefined_size_error : error :=
  Error "Cannot read properties of undefined (reading 'size')".

(** [validateFiles(files)]: [{ isValid, errors }], or the [TypeError] an empty
    array raises (an empty array is truthy, its element [0] is [undefined]). *)
Definition validateFiles (files : option uploaded) : result (bool * list string) :=
  let missing := Ok (false, ["Both source and target images are required"]) in
  match files with
  | None => missing
  | Some f =>
      match up_source f, up_target f with
      | Some src, Some tgt =>
          match src, tgt with
          | sourceFile :: _, targetFile :: _ =>
              let maxSize := (2 * 1024 * 1024)%Z in
              let allowedMimes := ["image/jpeg"; "image/png"; "image/jpg"] in
              let errors :=
                ((if Z.ltb maxSize (file_size sourceFile)
                 then ["Source image must be less than 2MB"] else [])
                ++ (if Z.ltb maxSize (file_size targetFile)
                    then ["Target image must be less than 2MB"] else [])
                ++ (if existsb (String.eqb (file_mimetype sourceFile)) allowedMimes
                    then [] else ["Source image must be JPEG, PNG, or JPG format"])
                ++ (if existsb (String.eqb (file_mimetype targetFile)) allowedMimes
                    then [] else ["Target image must be JPEG, PNG, or JPG format"]))%list in
              Ok (Nat.eqb (length errors) 0, errors)
          | _, _ => Err undefined_size_error
          end
      | _, _ => missing
      end
  end.

(** An image entry of a stored submission. *)
Record image_data := mkImageData { img_url : option string }.

(** A stored submission (the fields [downloadImage] reads). *)
Record submission := mkSubmission {
  sub_name : option string;
  sourceImage : option image_data;
  targetImage : option image_data;
  swappedImage : option image_data
}.

(** [getSubmissionById(id)] over the collection, seen as a lookup. *)
Definition getSubmissionById (db : string -> option submission) (id : string)
  : result submission :=
  match db id with
  | Some s => Ok s
  | None => Err (Error "Submission not found")
  end.

(** Character class [[a-zA-Z0-9]]. *)
Definition is_alnum (c : ascii) : bool :=
  let n := nat_of_ascii c in
  (((48 <=? n) && (n <=? 57)) || ((65 <=? n) && (n <=? 90))
  || ((97 <=? n) && (n <=? 122)))%nat.

(** [name.replace(/[^a-zA-Z0-9]/g, "_")], on names made of ASCII characters
    (one UTF-16 code unit each). *)
Fixpoint sanitize_name (s : string) : string :=
  match s with
  | EmptyString => EmptyString
  | String c s' => String (if is_alnum c then c else "_"%char) (sanitize_name s')
  end.

(** [s.replace(pattern, replacement)] with a string pattern: the first
    occurrence only. *)
Fixpoint replace_first (pat rep s : string) : string :=
  if starts_with pat s then rep ++ substring (String.length pat) (String.length s) s
  else match s with
       | EmptyString => EmptyString
       | String c s' => String c (replace_first pat rep s')
       end.

(** The double quote character. *)
Definition dquote : string := String (ascii_of_nat 34) EmptyString.

(** What the handler sends back. *)
Inductive http_out :=
| JsonError (status : Z) (error : string)
| RedirectAttachment (contentDisposition : string) (location : string).

Definition download_failed : http_out :=
  JsonError 500 "Download failed. Please try again later.".

(** [downloadImage(req, res)] for [req.params = { id, type }].
    [ObjectId.isValid] is the parameter [objectIdValid]. *)
Definition downloadImage (objectIdValid : string -> bool)
    (db : string -> option submission) (id type : string) : http_out :=
  if String.eqb id "" || String.eqb type "" || negb (objectIdValid id) then
    JsonError 400 "Invalid request parameters"
  else if negb (existsb (String.eqb type) ["source"; "target"; "swapped"]) then
    JsonError 400 "Invalid image type. Use: source, target, or swapped"
  else
    match getSubmissionById db id with
    | Err error =>
        if includes "not found" (err_message error)
        then JsonError 404 "Submission not found" else download_failed
    | Ok sub =>
        match sub_name sub with
        (* [submission.name.replace] on a missing name: a [TypeError] *)
        | None => download_failed
        | Some name =>
            let '(imageData, fileName) :=
              if String.eqb type "source" then
                (sourceImage sub, "source_" ++ sanitize_name name ++ "_" ++ id ++ ".jpg")
              else if String.eqb type "target" then
                (targetImage sub, "target_" ++ sanitize_name name ++ "_" ++ id ++ ".jpg")
              else
                (swappedImage sub, "swapped_" ++ sanitize_name name ++ "_" ++ id ++ ".jpg") in
            match imageData with
            | Some d =>
                if truthy (img_url d) then
                  let url := js_or (img_url d) "" in
                  let downloadUrl :=
                    if includes "cloudinary.com" url
                    then replace_first "/upload/" "/upload/fl_attachment/" url
                    else url in
                  RedirectAttachment ("attachment; filename=" ++ dquote ++ fileName ++ dquote)
                                     downloadUrl
                else JsonError 404 (type ++ " image not found for this submission")
            | None => JsonError 404 (type ++ " image not found for this submission")
            end
        end
    end.

(** The message [handleSubmission] shows for an error raised while processing
    a submission (its [catch] block). *)
Definition userErrorMessage (message : string) : string :=
  if includes "Face swap" message then
    "Face swap processing failed. Please try with different images."
  else if includes "upload" message then
    "Image upload failed. Please check your images and try again."
  else if includes "validation" message then message
  else if includes "database" message then "Database error. Please try again later."
  else "An unexpected error occurred during processing.".

(** ** Vocabulary of the statements *)

(** Requests that belong to job submission and polling. *)
Definition is_submission (c : call) : bool :=
  match c with
  | PostFaceSwap _ _ | PostOrderStatus _ => true
  | _ => false
  end.

(** A computation that leaves the stats alone and only appends requests that
    are not job submissions or polls. *)
Definition quiet {A} (m : M A) : Prop :=
  forall w, let '(_, w') := m w in
  w_stats w' = w_stats w
  /\ exists fresh, requests w' = (requests w ++ fresh)%list
                 /\ Forall (fun p => is_submission (fst p) = false) fresh.

Definition has_jpeg_magic (b : list byte) : bool :=
  byte_at b 0 xff && byte_at b 1 xd8 && byte_at b 2 xff.

Definition has_png_magic (b : list byte) : bool :=
  byte_at b 0 x89 && byte_at b 1 x50 && byte_at b 2 x4e && byte_at b 3 x47.

(** Sample inputs. *)
Definition sample_envelope (status : string) : envelope :=
  mkEnvelope (Some 2000%Z) None (Some status) (Some "https://cdn.example/out.jpg")
             (Some "order-1") (Some "https://s3.example/put") (Some "https://s3.example/img").

Definition sample_response (code : Z) (status : string) : response :=
  mkResponse code "" "{}" (Some (sample_envelope status)) [] None.

(** A service that answers every request after 250 ms with [rp]. *)
Definition sample_world (rp : reply) : world :=
  mkWorld reset_stats 0 [] [] (fun _ => None) (fun _ _ => (250, rp)).

(** Local files for the end-to-end failure scenario: a 2000-byte JPEG
    source and a 500-byte PNG target. *)
Definition sample_files (p : string) : option (list byte) :=
  if String.eqb p "source.jpg" then Some (xff :: xd8 :: xff :: repeat x00 1997)
  else if String.eqb p "target.png" then Some (x89 :: x50 :: x4e :: x47 :: repeat x00 496)
  else None.

Definition sample_world_files : world :=
  mkWorld reset_stats 0 [] [] sample_files
          (fun _ _ => (250, Received (sample_response 200 "init"))).

(** The possible changes of the stats across the poll loop. *)
Definition poll_stats_change (s s' : stats) : Prop :=
  s' = s \/ s' = incr_failed s \/ exists t, s' = record_success t s.

(** Whether a non-empty suffix of [a] shorter than [p] is a prefix of [p],
    i.e. whether an occurrence of [p] could straddle [a ++ b]. *)
Fixpoint overlap (p a : string) : bool :=
  match a with
  | EmptyString => false
  | String _ a' =>
      (Nat.ltb (String.length a) (String.length p) && starts_with a p) || overlap p a'
  end.

(** * Proofs *)

Open Scope list_scope.


(** ** Symbolic evaluation *)

(** Reduce the monadic plumbing while keeping the tests of the code (and the
    stats updates) as opaque atoms, so that case analysis happens on the
    conditions the source branches on. *)
Ltac run :=
  cbn -[Nat.eqb Nat.ltb Nat.leb includes opt_is truthy code_is res_ok js_or
        http_backoff catch_backoff record_success incr_failed incr_total
        Qplus Qminus MAX_RETRIES POLL_INTERVAL processing_failed_message
        polling_failed_message exhausted_message].

Ltac split_on_tests :=
  repeat (run; match goal with
  | |- context [match ?x with _ => _ end] =>
      lazymatch x with
      | context [match _ with _ => _ end] => fail
      | _ => destruct x eqn:?
      end
  end).

(** ** One poll iteration *)

(** The [try] block of an iteration: a [continue] leaves the stats alone, a
    [return] records one success, and an exception leaves the stats alone
    unless it is the processing failure, which counted one failure. *)
Lemma poll_attempt_cases (orderId : string) (startTime : Q) (attempt : nat) (w : world) :
  match poll_attempt orderId startTime attempt w with
  | (Ok None, w') => w_stats w' = w_stats w
  | (Ok (Some _), w') => exists t, w_stats w' = record_success t (w_stats w)
  | (Err e, w') =>
      w_stats w' = w_stats w
      \/ (w_stats w' = incr_failed (w_stats w) /\ e = Error processing_failed_message)
  end.
Proof.
  unfold poll_attempt, bind, fetch, json, ret, throw, sleep, modify_stats,
    get_stats, put_stats, now.
  split_on_tests; first [eexists; reflexivity | eauto].
Qed.

(** The [catch] block either rethrows, or sleeps and continues; it never
    touches the stats. *)
Lemma poll_catch_cases (attempt : nat) (e : error) (w : world) :
  poll_catch attempt e w = (Err e, w)
  \/ exists w', poll_catch attempt e w = (Ok None, w') /\ w_stats w' = w_stats w.
Proof.
  unfold poll_catch, bind, sleep, ret, throw.
  destruct (Nat.eqb attempt MAX_RETRIES || includes terminal_marker (err_message e)).
  - left; reflexivity.
  - right; eexists; split; reflexivity.
Qed.

Lemma poll_catch_terminal (attempt : nat) (e : error) (w : world) :
  includes terminal_marker (err_message e) = true ->
  poll_catch attempt e w = (Err e, w).
Proof.
  intros H. unfold poll_catch. rewrite H, Bool.orb_true_r. reflexivity.
Qed.

Lemma marker_in_processing_failed :
  includes terminal_marker processing_failed_message = true.
Proof. reflexivity. Qed.

(** A whole iteration: the stats change by at most one update, and a
    [continue] leaves them alone. *)
Lemma poll_iteration_cases (orderId : string) (startTime : Q) (attempt : nat) (w : world) :
  match try_catch (poll_attempt orderId startTime attempt) (poll_catch attempt) w with
  | (Ok None, w') => w_stats w' = w_stats w
  | (Ok (Some _), w') => exists t, w_stats w' = record_success t (w_stats w)
  | (Err _, w') => w_stats w' = w_stats w \/ w_stats w' = incr_failed (w_stats w)
  end.
Proof.
  pose proof (poll_attempt_cases orderId startTime attempt w) as H.
  unfold try_catch.
  destruct (poll_attempt orderId startTime attempt w) as [[[o|]|e] w1]; auto.
  destruct H as [H | [H ->]].
  - destruct (poll_catch_cases attempt e w1) as [-> | [w2 [-> H2]]]; cbn;
      [auto | congruence].
  - rewrite poll_catch_terminal by exact marker_in_processing_failed. auto.
Qed.

Lemma poll_loop_stats (fuel : nat) (orderId : string) (startTime : Q) :
  forall (attempt : nat) (w : world),
  poll_stats_change (w_stats w) (w_stats (snd (poll_loop fuel orderId startTime attempt w))).
Proof.
  unfold poll_stats_change.
  induction fuel as [|f IH]; intros attempt w; cbn [poll_loop].
  - right; left; reflexivity.
  - destruct (Nat.leb attempt MAX_RETRIES).
    + pose proof (poll_iteration_cases orderId startTime attempt w) as H.
      unfold bind.
      destruct (try_catch (poll_attempt orderId startTime attempt) (poll_catch attempt) w)
        as [[[o|]|e] w1]; cbn [snd ret].
      * destruct H as [t Ht]. right; right; exists t; exact Ht.
      * rewrite <- H. apply IH.
      * destruct H as [H | H]; [left | right; left]; exact H.
    + right; left; reflexivity.
Qed.

(** ** C10: one poll changes each counter by at most one *)

(** C10. A single call of [pollFaceSwapStatus] changes [successfulSwaps] by
    at most one and [failedSwaps] by at most one, never decreases either,
    and never increments both: the in-loop increment on a ["failed"] status
    and the increment after exhaustion cannot both happen in one call. *)
Theorem pollFaceSwapStatus_counters_at_most_one (orderId : string) (w : world) :
  let s := w_stats w in
  let s' := w_stats (snd (pollFaceSwapStatus orderId w)) in
  (successfulSwaps s' = successfulSwaps s \/ successfulSwaps s' = S (successfulSwaps s))
  /\ (failedSwaps s' = failedSwaps s \/ failedSwaps s' = S (failedSwaps s))
  /\ (successfulSwaps s <= successfulSwaps s')%nat
  /\ (failedSwaps s <= failedSwaps s')%nat
  /\ (successfulSwaps s' + failedSwaps s' <= S (successfulSwaps s + failedSwaps s))%nat.
Proof.
  cbv zeta.
  destruct (poll_loop_stats MAX_RETRIES orderId (clock w) 1 w) as [H | [H | [t H]]];
    unfold pollFaceSwapStatus, bind, now; cbn [snd]; rewrite H;
    cbn [successfulSwaps failedSwaps incr_failed record_success]; lia.
Qed.

(** ** C1: a job that stays ["init"] exhausts the five attempts *)

Section AllInit.

Variable orderId : string.
Variable srv : nat -> call -> Q * reply.

(** Every status request succeeds with a well-formed ["init"] envelope. *)
Hypothesis srv_init : forall n, exists lat r d,
  srv n (PostOrderStatus orderId) = (lat, Received r)
  /\ res_ok r = true /\ res_json r = Some d
  /\ statusCode d = Some 2000%Z /\ body_status d = Some "init".

Lemma init_iteration (startTime : Q) (attempt : nat) (w : world) :
  server w = srv ->
  exists w1,
    try_catch (poll_attempt orderId startTime attempt) (poll_catch attempt) w = (Ok None, w1)
    /\ w_stats w1 = w_stats w
    /\ map fst (requests w1) = map fst (requests w) ++ [PostOrderStatus orderId]
    /\ sleeps w1 = sleeps w ++ (if Nat.ltb attempt MAX_RETRIES then [POLL_INTERVAL] else [])
    /\ server w1 = srv.
Proof.
  intros Hs.
  destruct (srv_init (length (requests w))) as (lat & r & d & Hsrv & Hok & Hjs & Hc & Hst).
  unfold try_catch, poll_attempt, bind, fetch, json.
  rewrite Hs, Hsrv. run. rewrite Hok. run. rewrite Hjs. run.
  rewrite Hc, Hst. cbn -[Nat.ltb MAX_RETRIES POLL_INTERVAL].
  destruct (Nat.ltb attempt MAX_RETRIES); cbn; eexists; repeat split;
    cbn [requests sleeps w_stats server]; rewrite ?map_app, ?app_nil_r; auto.
Qed.

Lemma init_loop (startTime : Q) (fuel : nat) :
  forall attempt w, server w = srv -> (attempt + fuel = S MAX_RETRIES)%nat ->
  exists w',
    poll_loop fuel orderId startTime attempt w = (Err (Error exhausted_message), w')
    /\ w_stats w' = incr_failed (w_stats w)
    /\ map fst (requests w') = map fst (requests w) ++ repeat (PostOrderStatus orderId) fuel
    /\ sleeps w' = sleeps w ++ repeat POLL_INTERVAL (pred fuel).
Proof.
  induction fuel as [|g IH]; intros attempt w Hs Hf; cbn [poll_loop].
  - eexists; repeat split; cbn; rewrite ?app_nil_r; reflexivity.
  - replace (Nat.leb attempt MAX_RETRIES) with true
      by (symmetry; apply Nat.leb_le; unfold MAX_RETRIES in *; lia).
    destruct (init_iteration startTime attempt w Hs) as (w1 & Hit & Hst & Hrq & Hsl & Hs1).
    unfold bind at 1. rewrite Hit.
    destruct (IH (S attempt) w1 Hs1 ltac:(lia)) as (w' & Hl & Hst' & Hrq' & Hsl').
    exists w'. rewrite Hl. repeat split.
    + rewrite Hst', Hst. reflexivity.
    + rewrite Hrq', Hrq, <- app_assoc. reflexivity.
    + rewrite Hsl', Hsl, <- app_assoc. f_equal.
      destruct g as [|g'].
      * replace (Nat.ltb attempt MAX_RETRIES) with false
          by (symmetry; apply Nat.ltb_ge; unfold MAX_RETRIES in *; lia).
        reflexivity.
      * replace (Nat.ltb attempt MAX_RETRIES) with true
          by (symmetry; apply Nat.ltb_lt; unfold MAX_RETRIES in *; lia).
        reflexivity.
Qed.

End AllInit.

(** C1. If every status request succeeds with a well-formed ["init"]
    envelope, [pollFaceSwapStatus] issues exactly five status requests,
    sleeps the fixed 3000 ms interval between consecutive attempts and not
    after the last, counts one failure, and rejects with the exhaustion error
    naming the attempt count. *)
Theorem pollFaceSwapStatus_all_init_exhausts (orderId : string) (w : world) :
  (forall n, exists lat r d,
     server w n (PostOrderStatus orderId) = (lat, Received r)
     /\ res_ok r = true /\ res_json r = Some d
     /\ statusCode d = Some 2000%Z /\ body_status d = Some "init") ->
  exists w',
    pollFaceSwapStatus orderId w
      = (Err (Error "Face swap did not complete within 5 attempts (15 seconds)"), w')
    /\ map fst (requests w') = map fst (requests w) ++ repeat (PostOrderStatus orderId) 5
    /\ sleeps w' = sleeps w ++ [3000; 3000; 3000; 3000]
    /\ w_stats w' = incr_failed (w_stats w).
Proof.
  intros Hinit.
  destruct (init_loop orderId (server w) Hinit (clock w) MAX_RETRIES 1 w eq_refl eq_refl)
    as (w' & Hl & Hst & Hrq & Hsl).
  exists w'. unfold pollFaceSwapStatus, bind, now. rewrite Hl. repeat split; assumption.
Qed.

(** ** C2 and C3: the terminal statuses *)

Lemma leb_max_true (attempt : nat) :
  (attempt <= MAX_RETRIES)%nat -> Nat.leb attempt MAX_RETRIES = true.
Proof. apply Nat.leb_le. Qed.

(** One success sample from an empty history gives an average equal to it. *)
Lemma first_sample_average (avg t : Q) :
  (avg * (inject_Z (Z.of_nat 1) - 1) + t) / inject_Z (Z.of_nat 1) == t.
Proof. cbn. field. Qed.

(** C2. An attempt (any of the five) whose well-formed reply is ["active"]
    with a non-empty output ends the poll at once with that output, without
    another request or sleep; [successfulSwaps] goes up by one and the
    average becomes [(oldAvg * (n - 1) + elapsed) / n] for the new count [n],
    [elapsed] being the time since polling started.  From a history with no
    success the average is then the elapsed time itself. *)
Theorem poll_active_returns_output (orderId : string) (startTime : Q)
    (attempt g : nat) (w : world) (lat : Q) (r : response) (d : envelope) (out : string) :
  (attempt <= MAX_RETRIES)%nat ->
  server w (length (requests w)) (PostOrderStatus orderId) = (lat, Received r) ->
  res_ok r = true -> res_json r = Some d -> statusCode d = Some 2000%Z ->
  body_status d = Some "active" -> body_output d = Some out -> out <> "" ->
  let elapsed := clock w + lat - startTime in
  exists w',
    poll_loop (S g) orderId startTime attempt w = (Ok out, w')
    /\ map fst (requests w') = map fst (requests w) ++ [PostOrderStatus orderId]
    /\ sleeps w' = sleeps w
    /\ successfulSwaps (w_stats w') = S (successfulSwaps (w_stats w))
    /\ failedSwaps (w_stats w') = failedSwaps (w_stats w)
    /\ averageProcessingTime (w_stats w')
         == (averageProcessingTime (w_stats w)
               * (inject_Z (Z.of_nat (successfulSwaps (w_stats w'))) - 1) + elapsed)
            / inject_Z (Z.of_nat (successfulSwaps (w_stats w')))
    /\ (successfulSwaps (w_stats w) = 0%nat -> averageProcessingTime (w_stats w') == elapsed).
Proof.
  intros Hle Hsrv Hok Hjs Hc Hst Hout Hne elapsed.
  destruct out as [|c o]; [contradiction|].
  cbn [poll_loop]. rewrite (leb_max_true _ Hle).
  unfold bind at 1, try_catch.
  unfold poll_attempt, bind, fetch, json, now, modify_stats, get_stats, put_stats, ret.
  rewrite Hsrv. run. rewrite Hok. run. rewrite Hjs. run. rewrite Hc, Hst, Hout. cbn.
  eexists; repeat split.
  - cbn. rewrite map_app. reflexivity.
  - intros H0. unfold elapsed. cbn [w_stats set_stats record_success averageProcessingTime
      successfulSwaps]. rewrite H0. apply first_sample_average.
Qed.

(** C3. An attempt (any of the five, the final one or not) whose well-formed
    reply is ["failed"] counts one failure and ends the poll with the
    processing-failure error: the [catch] block rethrows it, so no further
    request or sleep happens. *)
Theorem poll_failed_is_terminal (orderId : string) (startTime : Q)
    (attempt g : nat) (w : world) (lat : Q) (r : response) (d : envelope) :
  (attempt <= MAX_RETRIES)%nat ->
  server w (length (requests w)) (PostOrderStatus orderId) = (lat, Received r) ->
  res_ok r = true -> res_json r = Some d -> statusCode d = Some 2000%Z ->
  body_status d = Some "failed" ->
  exists w',
    poll_loop (S g) orderId startTime attempt w
      = (Err (Error processing_failed_message), w')
    /\ map fst (requests w') = map fst (requests w) ++ [PostOrderStatus orderId]
    /\ sleeps w' = sleeps w
    /\ w_stats w' = incr_failed (w_stats w).
Proof.
  intros Hle Hsrv Hok Hjs Hc Hst.
  cbn [poll_loop]. rewrite (leb_max_true _ Hle).
  unfold bind at 1, try_catch.
  unfold poll_attempt, bind, fetch, json, now, modify_stats, get_stats, put_stats, ret, throw.
  rewrite Hsrv. run. rewrite Hok. run. rewrite Hjs. run. rewrite Hc, Hst. cbn -[includes].
  rewrite poll_catch_terminal by exact marker_in_processing_failed.
  eexists; repeat split. cbn. rewrite map_app. reflexivity.
Qed.

(** ** C4: the two backoff schedules *)

(** The [try] block never sleeps before it throws. *)
Lemma poll_attempt_err_no_sleep (orderId : string) (startTime : Q) (attempt : nat) (w : world) :
  match poll_attempt orderId startTime attempt w with
  | (Err _, w0) => sleeps w0 = sleeps w
  | _ => True
  end.
Proof.
  unfold poll_attempt, bind, fetch, json, ret, throw, sleep, modify_stats,
    get_stats, put_stats, now.
  split_on_tests; auto.
Qed.

Lemma ltb_max_true (attempt : nat) :
  (attempt < MAX_RETRIES)%nat -> Nat.ltb attempt MAX_RETRIES = true.
Proof. apply Nat.ltb_lt. Qed.

Lemma eqb_max_false (attempt : nat) :
  (attempt < MAX_RETRIES)%nat -> Nat.eqb attempt MAX_RETRIES = false.
Proof. intros H. apply Nat.eqb_neq. lia. Qed.

(** C4. After a non-final attempt whose HTTP status is not successful, the
    poller sleeps [min(3000 * 1.5^attempt, 10000)] ms and goes on with the
    next attempt; after a non-final attempt whose [try] block throws an
    exception the [catch] block does not treat as terminal, it sleeps
    [min(3000 * 1.2^attempt, 8000)] ms and goes on with the next attempt. *)
Theorem poll_backoff_schedules (orderId : string) (startTime : Q) (attempt g : nat) (w : world) :
  (attempt < MAX_RETRIES)%nat ->
  (forall lat r,
     server w (length (requests w)) (PostOrderStatus orderId) = (lat, Received r) ->
     res_ok r = false ->
     exists w1,
       poll_loop (S g) orderId startTime attempt w = poll_loop g orderId startTime (S attempt) w1
       /\ sleeps w1 = sleeps w ++ [Qmin (3000 * Qpower (3 # 2) (Z.of_nat attempt)) 10000]
       /\ map fst (requests w1) = map fst (requests w) ++ [PostOrderStatus orderId]
       /\ w_stats w1 = w_stats w)
  /\ (forall e w0,
     poll_attempt orderId startTime attempt w = (Err e, w0) ->
     includes terminal_marker (err_message e) = false ->
     exists w1,
       poll_loop (S g) orderId startTime attempt w = poll_loop g orderId startTime (S attempt) w1
       /\ sleeps w1 = sleeps w ++ [Qmin (3000 * Qpower (6 # 5) (Z.of_nat attempt)) 8000]
       /\ requests w1 = requests w0
       /\ w_stats w1 = w_stats w0).
Proof.
  intros Hlt. split.
  - intros lat r Hsrv Hok.
    cbn [poll_loop]. rewrite (leb_max_true _ (Nat.lt_le_incl _ _ Hlt)).
    unfold bind at 1, try_catch.
    unfold poll_attempt, bind, fetch, json, sleep, ret.
    rewrite Hsrv. run. rewrite Hok. run. rewrite (eqb_max_false _ Hlt). cbn.
    eexists; repeat split. cbn. rewrite map_app. reflexivity.
  - intros e w0 Hatt Hmark.
    pose proof (poll_attempt_err_no_sleep orderId startTime attempt w) as Hns.
    rewrite Hatt in Hns.
    cbn [poll_loop]. rewrite (leb_max_true _ (Nat.lt_le_incl _ _ Hlt)).
    unfold bind at 1, try_catch. rewrite Hatt.
    unfold poll_catch. rewrite (eqb_max_false _ Hlt), Hmark. cbn.
    eexists; repeat split. cbn. rewrite Hns. reflexivity.
Qed.

(** ** C9: a pending status on the final attempt *)

(** C9 (the code's behaviour). When every reply is well formed with the
    unrecognised status ["processing"], the poller sleeps 3000 ms after each
    of the five attempts, the last one included; with ["init"] it skips the
    sleep after the last attempt. *)
Theorem unrecognized_status_sleeps_after_final_attempt :
  sleeps (snd (pollFaceSwapStatus "order-1"
                 (sample_world (Received (sample_response 200 "processing")))))
    = [3000; 3000; 3000; 3000; 3000]
  /\ sleeps (snd (pollFaceSwapStatus "order-1"
                    (sample_world (Received (sample_response 200 "init")))))
    = [3000; 3000; 3000; 3000]
  /\ fst (pollFaceSwapStatus "order-1"
            (sample_world (Received (sample_response 200 "processing"))))
    = Err (Error exhausted_message)
  /\ length (requests (snd (pollFaceSwapStatus "order-1"
              (sample_world (Received (sample_response 200 "processing")))))) = 5%nat.
Proof. vm_compute. repeat split. Qed.

(** ** C5: the submission counters *)

Lemma code_is_true (c : option Z) (code : Z) :
  code_is c code = true -> c = Some code.
Proof. destruct c as [z|]; cbn; [intros H; apply Z.eqb_eq in H; subst; reflexivity | discriminate]. Qed.

Lemma truthy_js_or (o : option string) :
  truthy o = true -> o = Some (js_or o "") /\ js_or o "" <> "".
Proof. destruct o as [[|c s]|]; cbn; try discriminate. split; [reflexivity | discriminate]. Qed.

(** C5. [requestFaceSwap] counts the request before sending it (the request
    goes out with [totalRequests] already incremented).  It resolves only
    when the reply is a 2xx response whose envelope has status code 2000 and
    a non-empty order id, which it returns, leaving [failedSwaps] alone; in
    every other case (non-2xx, timeout or network failure, malformed or
    id-less envelope) it counts one failure and rejects. *)
Theorem requestFaceSwap_counters (sourceImageUrl targetImageUrl : string) (w : world) :
  let '(res, w') := requestFaceSwap sourceImageUrl targetImageUrl w in
  totalRequests (w_stats w') = S (totalRequests (w_stats w))
  /\ requests w' = requests w ++ [(PostFaceSwap sourceImageUrl targetImageUrl, incr_total (w_stats w))]
  /\ successfulSwaps (w_stats w') = successfulSwaps (w_stats w)
  /\ match res with
     | Ok orderId =>
         failedSwaps (w_stats w') = failedSwaps (w_stats w)
         /\ exists lat r d,
              server w (length (requests w)) (PostFaceSwap sourceImageUrl targetImageUrl)
                = (lat, Received r)
              /\ res_ok r = true /\ res_json r = Some d /\ statusCode d = Some 2000%Z
              /\ body_orderId d = Some orderId /\ orderId <> ""
     | Err _ => failedSwaps (w_stats w') = S (failedSwaps (w_stats w))
     end.
Proof.
  unfold requestFaceSwap, try_catch, bind, modify_stats, get_stats, put_stats,
    fetch, json, ret, throw.
  run.
  destruct (server w (length (requests w)) (PostFaceSwap sourceImageUrl targetImageUrl))
    as [lat rp] eqn:Hsrv.
  split_on_tests; repeat split; auto.
  match goal with
  | Hr : res_json ?r = Some ?d, Hb : (_ && truthy (body_orderId ?d))%bool = true,
    Hok : negb (res_ok ?r) = false |- _ =>
      exists lat, r, d;
      apply Bool.andb_true_iff in Hb; destruct Hb as [Hc Ht];
      apply Bool.negb_false_iff in Hok;
      destruct (truthy_js_or _ Ht) as [Ho Hne]
  end.
  repeat split; try assumption; apply code_is_true; assumption.
Qed.

(** ** C6: a failing image pipeline stops the job before submission *)

Lemma quiet_ret {A} (a : A) : quiet (ret a).
Proof. intros w. cbn. split; [reflexivity | exists []; rewrite app_nil_r; auto]. Qed.

Lemma quiet_throw {A} (e : error) : quiet (A := A) (throw e).
Proof. intros w. cbn. split; [reflexivity | exists []; rewrite app_nil_r; auto]. Qed.

Lemma quiet_json (r : response) : quiet (json r).
Proof. unfold json. destruct (res_json r); [apply quiet_ret | apply quiet_throw]. Qed.

Lemma quiet_read_file (p : string) : quiet (read_file p).
Proof. intros w. cbn. split; [reflexivity | exists []; rewrite app_nil_r; auto]. Qed.

Lemma quiet_fetch (c : call) : is_submission c = false -> quiet (fetch c).
Proof.
  intros Hc w. unfold fetch.
  destruct (server w (length (requests w)) c) as [lat [ab msg | r]];
    cbn; split; auto; exists [(c, w_stats w)]; auto.
Qed.

Lemma quiet_bind {A B} (m : M A) (k : A -> M B) :
  quiet m -> (forall a, quiet (k a)) -> quiet (bind m k).
Proof.
  intros Hm Hk w. unfold bind.
  specialize (Hm w). destruct (m w) as [[a|e] w1]; [|exact Hm].
  destruct Hm as [Hs1 (f1 & Hr1 & Hf1)].
  specialize (Hk a w1). destruct (k a w1) as [r2 w2].
  destruct Hk as [Hs2 (f2 & Hr2 & Hf2)].
  split; [congruence|]. exists (f1 ++ f2).
  rewrite Hr2, Hr1, app_assoc. split; [reflexivity | apply Forall_app; auto].
Qed.

Lemma quiet_try_catch {A} (m : M A) (h : error -> M A) :
  quiet m -> (forall e, quiet (h e)) -> quiet (try_catch m h).
Proof.
  intros Hm Hh w. unfold try_catch.
  specialize (Hm w). destruct (m w) as [[a|e] w1]; [exact Hm|].
  destruct Hm as [Hs1 (f1 & Hr1 & Hf1)].
  specialize (Hh e w1). destruct (h e w1) as [r2 w2].
  destruct Hh as [Hs2 (f2 & Hr2 & Hf2)].
  split; [congruence|]. exists (f1 ++ f2).
  rewrite Hr2, Hr1, app_assoc. split; [reflexivity | apply Forall_app; auto].
Qed.

Lemma quiet_settle {A} (m : M A) : quiet m -> quiet (settle m).
Proof. intros Hm w. specialize (Hm w). unfold settle. destruct (m w). exact Hm. Qed.

(** Structural decomposition of a [quiet] goal along the code. *)
Ltac quiet_tac :=
  repeat (intros; cbv zeta; match goal with
  | |- quiet (bind _ _) => apply quiet_bind
  | |- quiet (try_catch _ _) => apply quiet_try_catch
  | |- quiet (settle _) => apply quiet_settle
  | |- quiet (ret _) => apply quiet_ret
  | |- quiet (throw _) => apply quiet_throw
  | |- quiet (fetch _) => apply quiet_fetch; reflexivity
  | |- quiet (json _) => apply quiet_json
  | |- quiet (read_file _) => apply quiet_read_file
  | |- quiet (if ?b then _ else _) => destruct b
  | |- quiet (match ?x with _ => _ end) => destruct x
  end).

Lemma quiet_getUploadUrl (b : list byte) (ct : string) : quiet (getUploadUrl b ct).
Proof. unfold getUploadUrl. quiet_tac. Qed.

Lemma quiet_uploadImageToS3 (url : string) (b : list byte) (ct : string) :
  quiet (uploadImageToS3 url b ct).
Proof. unfold uploadImageToS3. quiet_tac. Qed.

(** The image pipeline never touches the stats and never submits or polls. *)
Lemma quiet_processImage (src : string) (isUrl : bool) : quiet (processImage src isUrl).
Proof.
  unfold processImage. quiet_tac.
  - apply quiet_getUploadUrl.
  - apply quiet_uploadImageToS3.
Qed.

(** C6. When at least one of the two image pipelines (acquisition,
    validation, upload negotiation) of [performFaceSwap] fails, the job
    rejects with the error of a failing pipeline, [requestFaceSwap] is never
    reached: no submission or status request goes out, and the stats
    ([totalRequests], [successfulSwaps], [failedSwaps], the average) are
    unchanged. *)
Theorem performFaceSwap_pipeline_failure (source_first : bool)
    (sourceImage targetImage : string) (sourceIsUrl targetIsUrl : bool)
    (w : world) (ra rb : result string) (w1 : world) :
  settle_both source_first (processImage sourceImage sourceIsUrl)
              (processImage targetImage targetIsUrl) w = (Ok (ra, rb), w1) ->
  (is_err ra || is_err rb)%bool = true ->
  let '(res, w') := performFaceSwap source_first sourceImage targetImage
                                    sourceIsUrl targetIsUrl w in
  (exists e, res = Err e /\ (ra = Err e \/ rb = Err e))
  /\ w_stats w' = w_stats w
  /\ exists fresh, requests w' = requests w ++ fresh
                   /\ Forall (fun p => is_submission (fst p) = false) fresh.
Proof.
  intros Hset Herr.
  assert (Hq : quiet (settle_both source_first (processImage sourceImage sourceIsUrl)
                                  (processImage targetImage targetIsUrl))).
  { unfold settle_both. destruct source_first; quiet_tac; apply quiet_processImage. }
  specialize (Hq w). rewrite Hset in Hq.
  unfold performFaceSwap, try_catch, all2.
  unfold bind. cbv beta. rewrite Hset.
  destruct ra as [a|ea], rb as [b|eb]; cbn in Herr; try discriminate;
    cbn; (split; [|exact Hq]).
  - exists eb. auto.
  - exists ea. auto.
  - destruct source_first; eauto.
Qed.

(** ** C7: size violations *)

(** C7. Validation reports a size violation exactly when the buffer is
    larger than 5 MiB or smaller than 1 KiB, whatever its bytes and declared
    content type. *)
Theorem validate_size_violation_iff (b : list byte) (contentType : string) :
  existsb is_size_violation (validateImageBuffer b contentType) = true
  <-> (5 * 1024 * 1024 < blen b \/ blen b < 1024)%Z.
Proof.
  unfold validateImageBuffer, MAX_FILE_SIZE.
  rewrite !existsb_app.
  destruct (Z.ltb (5 * 1024 * 1024) (blen b)) eqn:Hmax,
           (Z.ltb (blen b) 1024) eqn:Hmin,
           (existsb (String.eqb contentType) SUPPORTED_FORMATS),
           (isValidImageBuffer b contentType);
    cbn; rewrite ?Z.ltb_lt, ?Z.ltb_ge in *; split; intros; try lia; try discriminate; auto.
Qed.

(** ** C8: the signature check *)

(** C8 as stated fails: a 3-byte buffer carrying the JPEG magic, declared
    with a content type that has no jpeg, jpg or png hint, is rejected by the
    signature check, which refuses every buffer shorter than 4 bytes. *)
Lemma signature_fallback_counterexample :
  ~ (forall (b : list byte) (contentType : string),
       includes "jpeg" contentType = false -> includes "jpg" contentType = false ->
       includes "png" contentType = false ->
       (isValidImageBuffer b contentType = true
        <-> (has_jpeg_magic b || has_png_magic b)%bool = true)).
Proof.
  intros H.
  destruct (H [xff; xd8; xff] "image/gif" eq_refl eq_refl eq_refl) as [_ Hback].
  discriminate (Hback eq_refl).
Qed.

(** C8 (amended). A buffer starting with the JPEG magic [FF D8 FF] declared
    as [image/png] fails the signature check and validation reports the
    corrupt-data violation; for a content type with no jpeg, jpg or png
    hint, the signature check accepts exactly the buffers of at least 4
    bytes that carry the JPEG or the PNG magic. *)
Theorem signature_check_amended (rest b : list byte) (contentType : string) :
  (isValidImageBuffer (xff :: xd8 :: xff :: rest) "image/png" = false
   /\ In CorruptData (validateImageBuffer (xff :: xd8 :: xff :: rest) "image/png"))
  /\ (includes "jpeg" contentType = false -> includes "jpg" contentType = false ->
      includes "png" contentType = false ->
      (isValidImageBuffer b contentType = true
       <-> (4 <= blen b)%Z /\ (has_jpeg_magic b || has_png_magic b)%bool = true)).
Proof.
  assert (Hpng : isValidImageBuffer (xff :: xd8 :: xff :: rest) "image/png" = false).
  { unfold isValidImageBuffer.
    destruct (Z.ltb (blen (xff :: xd8 :: xff :: rest)) 4); reflexivity. }
  split; [split|].
  - exact Hpng.
  - unfold validateImageBuffer. rewrite Hpng. rewrite !in_app_iff. right; right; right.
    left; reflexivity.
  - intros Hj1 Hj2 Hp.
    unfold isValidImageBuffer, has_jpeg_magic, has_png_magic.
    rewrite Hj1, Hj2, Hp. cbn [orb].
    destruct (Z.ltb (blen b) 4) eqn:Hlen; rewrite ?Z.ltb_lt, ?Z.ltb_ge in Hlen.
    + split; [discriminate | intros [H _]; lia].
    + split; [intros H; split; [lia | exact H] | intros [_ H]; exact H].
Qed.

(** * Witnesses: the theorems with hypotheses at concrete inputs *)

Lemma pollFaceSwapStatus_all_init_exhausts_witness :
  (forall n, exists lat r d,
     server (sample_world (Received (sample_response 200 "init"))) n
            (PostOrderStatus "order-1") = (lat, Received r)
     /\ res_ok r = true /\ res_json r = Some d
     /\ statusCode d = Some 2000%Z /\ body_status d = Some "init")
  /\ exists w',
    pollFaceSwapStatus "order-1" (sample_world (Received (sample_response 200 "init")))
      = (Err (Error "Face swap did not complete within 5 attempts (15 seconds)"), w')
    /\ map fst (requests w') = [] ++ repeat (PostOrderStatus "order-1") 5
    /\ sleeps w' = [] ++ [3000; 3000; 3000; 3000]
    /\ w_stats w' = incr_failed reset_stats.
Proof.
  assert (H : forall n, exists lat r d,
     server (sample_world (Received (sample_response 200 "init"))) n
            (PostOrderStatus "order-1") = (lat, Received r)
     /\ res_ok r = true /\ res_json r = Some d
     /\ statusCode d = Some 2000%Z /\ body_status d = Some "init").
  { intros n. exists 250, (sample_response 200 "init"), (sample_envelope "init").
    repeat split. }
  split; [exact H | exact (pollFaceSwapStatus_all_init_exhausts "order-1" _ H)].
Defined.

Lemma poll_active_returns_output_witness :
  (1 <= MAX_RETRIES)%nat
  /\ server (sample_world (Received (sample_response 200 "active"))) 0
       (PostOrderStatus "order-1") = (250, Received (sample_response 200 "active"))
  /\ res_ok (sample_response 200 "active") = true
  /\ res_json (sample_response 200 "active") = Some (sample_envelope "active")
  /\ statusCode (sample_envelope "active") = Some 2000%Z
  /\ body_status (sample_envelope "active") = Some "active"
  /\ body_output (sample_envelope "active") = Some "https://cdn.example/out.jpg"
  /\ "https://cdn.example/out.jpg" <> ""
  /\ let w := sample_world (Received (sample_response 200 "active")) in
     let elapsed := clock w + 250 - 0 in
     exists w',
       poll_loop 5 "order-1" 0 1 w = (Ok "https://cdn.example/out.jpg", w')
       /\ map fst (requests w') = map fst (requests w) ++ [PostOrderStatus "order-1"]
       /\ sleeps w' = sleeps w
       /\ successfulSwaps (w_stats w') = S (successfulSwaps (w_stats w))
       /\ failedSwaps (w_stats w') = failedSwaps (w_stats w)
       /\ averageProcessingTime (w_stats w')
            == (averageProcessingTime (w_stats w)
                  * (inject_Z (Z.of_nat (successfulSwaps (w_stats w'))) - 1) + elapsed)
               / inject_Z (Z.of_nat (successfulSwaps (w_stats w')))
       /\ (successfulSwaps (w_stats w) = 0%nat -> averageProcessingTime (w_stats w') == elapsed).
Proof.
  split; [unfold MAX_RETRIES; lia|].
  do 6 (split; [reflexivity|]).
  split; [discriminate|].
  apply (poll_active_returns_output "order-1" 0 1 4
           (sample_world (Received (sample_response 200 "active"))) 250
           (sample_response 200 "active") (sample_envelope "active")
           "https://cdn.example/out.jpg");
    first [unfold MAX_RETRIES; lia | reflexivity | discriminate].
Defined.

Lemma poll_failed_is_terminal_witness :
  (1 <= MAX_RETRIES)%nat
  /\ server (sample_world (Received (sample_response 200 "failed"))) 0
       (PostOrderStatus "order-1") = (250, Received (sample_response 200 "failed"))
  /\ res_ok (sample_response 200 "failed") = true
  /\ res_json (sample_response 200 "failed") = Some (sample_envelope "failed")
  /\ statusCode (sample_envelope "failed") = Some 2000%Z
  /\ body_status (sample_envelope "failed") = Some "failed"
  /\ exists w',
       poll_loop 5 "order-1" 0 1 (sample_world (Received (sample_response 200 "failed")))
         = (Err (Error processing_failed_message), w')
       /\ map fst (requests w') = [] ++ [PostOrderStatus "order-1"]
       /\ sleeps w' = []
       /\ w_stats w' = incr_failed reset_stats.
Proof.
  split; [unfold MAX_RETRIES; lia|].
  do 5 (split; [reflexivity|]).
  apply (poll_failed_is_terminal "order-1" 0 1 4
           (sample_world (Received (sample_response 200 "failed"))) 250
           (sample_response 200 "failed") (sample_envelope "failed"));
    first [unfold MAX_RETRIES; lia | reflexivity].
Defined.

(** Both schedules at attempt 1: an HTTP 500 reply takes the first one, a
    connection reset (a rejected [fetch]) the second. *)
Lemma poll_backoff_schedules_witness :
  (1 < MAX_RETRIES)%nat
  /\ (exists w1,
       poll_loop 5 "order-1" 0 1 (sample_world (Received (sample_response 500 "init")))
         = poll_loop 4 "order-1" 0 2 w1
       /\ sleeps w1 = [Qmin (3000 * Qpower (3 # 2) (Z.of_nat 1)) 10000]
       /\ map fst (requests w1) = [PostOrderStatus "order-1"]
       /\ w_stats w1 = reset_stats)
  /\ poll_attempt "order-1" 0 1 (sample_world (Rejected false "ECONNRESET"))
       = (Err (Error "ECONNRESET"),
          snd (poll_attempt "order-1" 0 1 (sample_world (Rejected false "ECONNRESET"))))
  /\ includes terminal_marker "ECONNRESET" = false
  /\ (exists w1,
       poll_loop 5 "order-1" 0 1 (sample_world (Rejected false "ECONNRESET"))
         = poll_loop 4 "order-1" 0 2 w1
       /\ sleeps w1 = [Qmin (3000 * Qpower (6 # 5) (Z.of_nat 1)) 8000]
       /\ requests w1
          = requests (snd (poll_attempt "order-1" 0 1 (sample_world (Rejected false "ECONNRESET"))))
       /\ w_stats w1
          = w_stats (snd (poll_attempt "order-1" 0 1 (sample_world (Rejected false "ECONNRESET"))))).
Proof.
  assert (Hlt : (1 < MAX_RETRIES)%nat) by (unfold MAX_RETRIES; lia).
  assert (Hrej : poll_attempt "order-1" 0 1 (sample_world (Rejected false "ECONNRESET"))
       = (Err (Error "ECONNRESET"),
          snd (poll_attempt "order-1" 0 1 (sample_world (Rejected false "ECONNRESET")))))
    by reflexivity.
  assert (Hterm : includes terminal_marker "ECONNRESET" = false) by reflexivity.
  destruct (poll_backoff_schedules "order-1" 0 1 4
              (sample_world (Received (sample_response 500 "init"))) Hlt) as [H1 _].
  destruct (poll_backoff_schedules "order-1" 0 1 4
              (sample_world (Rejected false "ECONNRESET")) Hlt) as [_ H2].
  split; [exact Hlt|].
  split; [exact (H1 250%Q (sample_response 500 "init") eq_refl eq_refl)|].
  split; [exact Hrej|]. split; [exact Hterm|].
  exact (H2 _ _ Hrej Hterm).
Defined.

(** The end-to-end failure scenario: a valid 2000-byte JPEG source and a
    500-byte PNG target read from disk. *)
Lemma performFaceSwap_pipeline_failure_witness :
  settle_both true (processImage "source.jpg" false) (processImage "target.png" false)
              sample_world_files
    = (Ok (Ok "https://s3.example/img",
           Err (Error "Image validation failed: Image size 500 bytes is too small. Minimum size is 1KB")),
       snd (settle_both true (processImage "source.jpg" false)
                        (processImage "target.png" false) sample_world_files))
  /\ (is_err (Ok "https://s3.example/img")
      || is_err (A := string) (Err (Error "Image validation failed: Image size 500 bytes is too small. Minimum size is 1KB")))%bool = true
  /\ let '(res, w') := performFaceSwap true "source.jpg" "target.png" false false
                                       sample_world_files in
     (exists e, res = Err e
                /\ (Ok "https://s3.example/img" = Err (A := string) e
                    \/ Err (Error "Image validation failed: Image size 500 bytes is too small. Minimum size is 1KB") = Err (A := string) e))
     /\ w_stats w' = w_stats sample_world_files
     /\ exists fresh, requests w' = requests sample_world_files ++ fresh
                      /\ Forall (fun p => is_submission (fst p) = false) fresh.
Proof.
  assert (Hset : settle_both true (processImage "source.jpg" false)
                   (processImage "target.png" false) sample_world_files
    = (Ok (Ok "https://s3.example/img",
           Err (Error "Image validation failed: Image size 500 bytes is too small. Minimum size is 1KB")),
       snd (settle_both true (processImage "source.jpg" false)
                        (processImage "target.png" false) sample_world_files))).
  { symmetry. apply injective_projections; [vm_compute; reflexivity | reflexivity]. }
  split; [exact Hset|]. split; [reflexivity|].
  exact (performFaceSwap_pipeline_failure true "source.jpg" "target.png" false false
           sample_world_files _ _ _ Hset eq_refl).
Defined.

Lemma signature_check_amended_witness :
  includes "jpeg" "image/gif" = false /\ includes "jpg" "image/gif" = false
  /\ includes "png" "image/gif" = false
  /\ (isValidImageBuffer [xff; xd8; xff] "image/png" = false
      /\ In CorruptData (validateImageBuffer [xff; xd8; xff] "image/png"))
  /\ (isValidImageBuffer [xff; xd8; xff; x00] "image/gif" = true
      <-> (4 <= blen [xff; xd8; xff; x00])%Z
          /\ (has_jpeg_magic [xff; xd8; xff; x00] || has_png_magic [xff; xd8; xff; x00])%bool = true).
Proof.
  assert (H := signature_check_amended [] [xff; xd8; xff; x00] "image/gif").
  destruct H as [H1 H2].
  split; [reflexivity|]. split; [reflexivity|]. split; [reflexivity|].
  split; [exact H1 | exact (H2 eq_refl eq_refl eq_refl)].
Defined.

(** * Further properties of the client and its callers *)

(** [testConnection] never rejects.  It sends exactly one upload-URL request
    (size 1000, [image/jpeg]) and leaves the stats and the sleeps alone.  It
    resolves [true] exactly when that request gets an HTTP 200 reply whose
    body parses as JSON; a timeout, a network failure, any other status (403
    included) or a 200 reply with a non-JSON body give [false]. *)
Theorem testConnection_probe (w : world) :
  let '(res, w') := testConnection w in
  w_stats w' = w_stats w
  /\ requests w' = requests w ++ [(PostUploadImageUrl 1000 "image/jpeg", w_stats w)]
  /\ sleeps w' = sleeps w
  /\ exists b, res = Ok b
     /\ (b = true <-> exists lat r d,
           server w (length (requests w)) (PostUploadImageUrl 1000 "image/jpeg")
             = (lat, Received r)
           /\ res_status r = 200%Z /\ res_json r = Some d).
Proof.
  unfold testConnection, try_catch, bind, fetch, json, ret, throw.
  destruct (server w (length (requests w)) (PostUploadImageUrl 1000 "image/jpeg"))
    as [lat [ab msg | r]] eqn:Hsrv; cbn.
  - split; [reflexivity | split; [reflexivity | split; [reflexivity|]]].
    exists false. split; [reflexivity|].
    split; [discriminate | intros (l & r & d & H & _); discriminate].
  - destruct (Z.eqb (res_status r) 200) eqn:H200; [destruct (res_json r) as [d|] eqn:Hj|];
      [| | destruct (Z.eqb (res_status r) 403)]; cbn;
      (split; [reflexivity | split; [reflexivity | split; [reflexivity|]]]);
      [exists true | exists false | exists false | exists false];
      (split; [reflexivity|]); split; try discriminate; try (intros; reflexivity).
    + intros _. exists lat, r, d. apply Z.eqb_eq in H200. auto.
    + intros (l & r' & d' & H & Hs & Hd). injection H as <- <-. congruence.
    + intros (l & r' & d' & H & Hs & Hd). injection H as <- <-.
      apply Z.eqb_neq in H200. contradiction.
    + intros (l & r' & d' & H & Hs & Hd). injection H as <- <-.
      apply Z.eqb_neq in H200. contradiction.
Qed.

Lemma starts_with_app (p s : string) : starts_with p (p ++ s)%string = true.
Proof. induction p as [|c p IH]; cbn; [reflexivity|]. rewrite Ascii.eqb_refl. exact IH. Qed.

(** [uploadImageToS3] sends exactly one PUT, to the given URL, with the
    content type and a content length equal to the buffer's length, and never
    touches the stats or sleeps.  It resolves exactly on a 2xx reply.  A
    timeout gives the timeout message; every other failure is wrapped in
    ["Failed to upload to S3: "], so a non-2xx reply is reported as
    ["Failed to upload to S3: S3 upload failed: <status> - <statusText>"]. *)
Theorem uploadImageToS3_contract (uploadUrl : string) (b : list byte) (ct : string) (w : world) :
  let '(res, w') := uploadImageToS3 uploadUrl b ct w in
  requests w' = requests w ++ [(PutUpload uploadUrl ct (blen b), w_stats w)]
  /\ w_stats w' = w_stats w
  /\ sleeps w' = sleeps w
  /\ match server w (length (requests w)) (PutUpload uploadUrl ct (blen b)), res with
     | (_, Received r), Ok _ => res_ok r = true
     | (_, Received r), Err e =>
         res_ok r = false
         /\ err_message e = ("Failed to upload to S3: S3 upload failed: "
                              ++ string_of_Z (res_status r) ++ " - " ++ res_statusText r)%string
     | (_, Rejected true _), Err e =>
         err_message e = "S3 upload timed out. Please try again with a smaller image or check your internet connection."
     | (_, Rejected false msg), Err e => err_message e = ("Failed to upload to S3: " ++ msg)%string
     | (_, Rejected _ _), Ok _ => False
     end.
Proof.
  unfold uploadImageToS3, try_catch, bind, fetch, ret, throw.
  destruct (server w (length (requests w)) (PutUpload uploadUrl ct (blen b)))
    as [lat [[|] msg | r]] eqn:Hsrv; cbn; repeat split; auto.
  destruct (res_ok r) eqn:Hok; cbn; repeat split; auto.
Qed.

(** Validation failure short-circuits [getUploadUrl]. *)
Lemma getUploadUrl_invalid (b : list byte) (ct : string) (w : world) :
  validateImageBuffer b ct <> [] ->
  getUploadUrl b ct w
    = (Err (Error ("Image validation failed: "
                   ++ join ", " (map render (validateImageBuffer b ct)))%string), w).
Proof.
  intros H. unfold getUploadUrl, try_catch, throw, isValid.
  destruct (validateImageBuffer b ct); [contradiction | reflexivity].
Qed.

(** For a local path, [processImage] fails without any network request and
    without changing the world when the file is missing, when its lower-cased
    extension is none of [.png], [.jpg], [.jpeg], or when the file fails
    validation for the content type its extension selects. *)
Theorem processImage_local_offline_failures (p : string) (w : world) :
  (files w p = None ->
   processImage p false w = (Err (Error ("File not found: " ++ p)%string), w))
  /\ (forall b, files w p = Some b ->
      ~ In (to_lower (extname p)) [".png"; ".jpg"; ".jpeg"] ->
      processImage p false w
        = (Err (Error ("Unsupported file extension: " ++ to_lower (extname p)
                       ++ ". Please use .jpg, .jpeg, or .png files.")%string), w))
  /\ (forall b ct, files w p = Some b ->
      (to_lower (extname p) = ".png" /\ ct = "image/png"
       \/ In (to_lower (extname p)) [".jpg"; ".jpeg"] /\ ct = "image/jpeg") ->
      validateImageBuffer b ct <> [] ->
      processImage p false w
        = (Err (Error ("Image validation failed: "
                       ++ join ", " (map render (validateImageBuffer b ct)))%string), w)).
Proof.
  unfold processImage, try_catch, bind, read_file, ret, throw.
  repeat split.
  - intros H. rewrite H. reflexivity.
  - intros b H Hn. rewrite H.
    destruct (String.eqb (to_lower (extname p)) ".png") eqn:E1;
      [apply String.eqb_eq in E1; rewrite E1 in Hn; cbn in Hn; tauto|].
    destruct (String.eqb (to_lower (extname p)) ".jpg") eqn:E2;
      [apply String.eqb_eq in E2; rewrite E2 in Hn; cbn in Hn; tauto|].
    destruct (String.eqb (to_lower (extname p)) ".jpeg") eqn:E3;
      [apply String.eqb_eq in E3; rewrite E3 in Hn; cbn in Hn; tauto|].
    reflexivity.
  - intros b ct H Hext Hv. rewrite H.
    pose proof (getUploadUrl_invalid b ct w Hv) as Hg.
    destruct Hext as [[E ->] | [E ->]].
    + rewrite E. cbn -[getUploadUrl]. rewrite Hg. reflexivity.
    + destruct E as [E | [E | []]]; rewrite <- E; cbn -[getUploadUrl]; rewrite Hg; reflexivity.
Qed.

Lemma getUploadUrl_ok_inv (b : list byte) (ct : string) (w : world) (up img : string) (w' : world) :
  getUploadUrl b ct w = (Ok (up, img), w') ->
  validateImageBuffer b ct = []
  /\ w_stats w' = w_stats w /\ sleeps w' = sleeps w /\ server w' = server w
  /\ files w' = files w
  /\ requests w' = requests w ++ [(PostUploadImageUrl (blen b) ct, w_stats w)]
  /\ exists lat r d,
       server w (length (requests w)) (PostUploadImageUrl (blen b) ct) = (lat, Received r)
       /\ res_ok r = true /\ res_json r = Some d /\ statusCode d = Some 2000%Z
       /\ body_uploadImage d = Some up /\ body_imageUrl d = Some img
       /\ up <> "" /\ img <> "".
Proof.
  unfold getUploadUrl, try_catch, bind, fetch, json, ret, throw, isValid.
  destruct (validateImageBuffer b ct) eqn:Hv; [|cbn; intros H; discriminate H].
  run.
  destruct (server w (length (requests w)) (PostUploadImageUrl (blen b) ct))
    as [lat [ab msg | r]] eqn:Hsrv; cbn;
    [destruct ab; cbn; intros H; discriminate H|].
  destruct (res_ok r) eqn:Hok; cbn.
  2:{ destruct (Z.eqb (res_status r) 403); [cbn; intros H; discriminate H|].
      destruct (Z.eqb (res_status r) 429); [cbn; intros H; discriminate H|].
      destruct (Z.eqb (res_status r) 402); cbn; intros H; discriminate H. }
  destruct (res_json r) as [d|] eqn:Hj; cbn; [|intros H; discriminate H].
  destruct (code_is (statusCode d) 2000 && truthy (body_uploadImage d)
            && truthy (body_imageUrl d))%bool eqn:Hb; cbn; [|intros H; discriminate H].
  intros H. injection H as Hu Hi <-.
  apply Bool.andb_true_iff in Hb as [Hb Hti]. apply Bool.andb_true_iff in Hb as [Hc Htu].
  destruct (truthy_js_or _ Htu) as [Eu Nu]. destruct (truthy_js_or _ Hti) as [Ei Ni].
  rewrite Hu in Eu, Nu. rewrite Hi in Ei, Ni.
  repeat split; auto. exists lat, r, d. repeat split; auto. apply code_is_true; exact Hc.
Qed.

Lemma uploadImageToS3_ok_inv (url : string) (b : list byte) (ct : string) (w : world) (x : unit) (w' : world) :
  uploadImageToS3 url b ct w = (Ok x, w') ->
  w_stats w' = w_stats w /\ sleeps w' = sleeps w /\ server w' = server w
  /\ requests w' = requests w ++ [(PutUpload url ct (blen b), w_stats w)].
Proof.
  unfold uploadImageToS3, try_catch, bind, fetch, ret, throw.
  destruct (server w (length (requests w)) (PutUpload url ct (blen b)))
    as [lat [ab msg | r]]; cbn; [destruct ab; intros H; discriminate H|].
  destruct (res_ok r); cbn; [|intros H; discriminate H].
  intros H. injection H as _ <-. auto.
Qed.

Lemma pipeline_tail (b : list byte) (ct : string) (w w1 : world) (pre : list (call * stats))
    (u : string) (w' : world) :
  requests w1 = requests w ++ pre -> w_stats w1 = w_stats w -> sleeps w1 = sleeps w ->
  server w1 = server w ->
  (uploadInfo <- getUploadUrl b ct ;;
   uploadImageToS3 (fst uploadInfo) b ct ;;; ret (snd uploadInfo)) w1 = (Ok u, w') ->
  w_stats w' = w_stats w /\ sleeps w' = sleeps w
  /\ exists up,
       requests w' = requests w ++ pre ++ [(PostUploadImageUrl (blen b) ct, w_stats w);
                                            (PutUpload up ct (blen b), w_stats w)]
       /\ validateImageBuffer b ct = []
       /\ exists lat r d,
            server w (length (requests w ++ pre)) (PostUploadImageUrl (blen b) ct)
              = (lat, Received r)
            /\ res_ok r = true /\ res_json r = Some d /\ statusCode d = Some 2000%Z
            /\ body_uploadImage d = Some up /\ body_imageUrl d = Some u /\ u <> "".
Proof.
  intros Hr Hs Hsl Hsv. unfold bind at 1.
  destruct (getUploadUrl b ct w1) as [[[up img]|e] w2] eqn:Hg; [|discriminate].
  destruct (getUploadUrl_ok_inv b ct w1 up img w2 Hg)
    as (Hv & Hs2 & Hsl2 & Hsv2 & _ & Hr2 & lat & r & d & Hsrv & Hok & Hj & Hc & Hup & Him & Nup & Nim).
  cbn [fst snd]. unfold bind.
  destruct (uploadImageToS3 up b ct w2) as [[x|e] w3] eqn:Hu; [|discriminate].
  destruct (uploadImageToS3_ok_inv up b ct w2 x w3 Hu) as (Hs3 & Hsl3 & Hsv3 & Hr3).
  unfold ret. intros H. injection H as <- <-.
  split; [congruence|]. split; [congruence|]. exists up.
  split; [|split; [exact Hv|]].
  - rewrite Hr3, Hr2, Hr, Hs2, Hs, <- !app_assoc. reflexivity.
  - exists lat, r, d. rewrite <- Hr, <- Hsv. repeat split; assumption.
Qed.

(** When [processImage] resolves, the stats and sleeps are unchanged and it has
    sent, after the image download (URL mode only), exactly one upload-URL
    request for a buffer that passed validation and then exactly one PUT of
    that buffer, with the same content type and length, to the upload URL the
    negotiation returned.  It resolves with the image URL of that negotiation
    reply.  The buffer is the local file, or the downloaded body with the
    response's content type ([image/jpeg] when missing or empty). *)
Theorem processImage_success (src : string) (isUrl : bool) (w : world) (u : string) (w' : world) :
  processImage src isUrl w = (Ok u, w') ->
  w_stats w' = w_stats w /\ sleeps w' = sleeps w
  /\ exists b ct up pre,
       requests w' = requests w ++ pre ++ [(PostUploadImageUrl (blen b) ct, w_stats w);
                                            (PutUpload up ct (blen b), w_stats w)]
       /\ map fst pre = (if isUrl then [GetImage src] else [])
       /\ validateImageBuffer b ct = []
       /\ (isUrl = false -> files w src = Some b)
       /\ (isUrl = true -> exists lat0 r0,
             server w (length (requests w)) (GetImage src) = (lat0, Received r0)
             /\ res_ok r0 = true /\ res_bytes r0 = b
             /\ ct = js_or (res_contentType r0) "image/jpeg")
       /\ exists lat r d,
            server w (length (requests w ++ pre)) (PostUploadImageUrl (blen b) ct)
              = (lat, Received r)
            /\ res_ok r = true /\ res_json r = Some d /\ statusCode d = Some 2000%Z
            /\ body_uploadImage d = Some up /\ body_imageUrl d = Some u /\ u <> "".
Proof.
  unfold processImage, try_catch. unfold bind at 1.
  destruct isUrl.
  - unfold bind at 1, fetch.
    destruct (server w (length (requests w)) (GetImage src)) as [lat0 [ab msg | r0]] eqn:Hsrv0;
      [intros H; discriminate H|].
    cbn [negb]. destruct (res_ok r0) eqn:Hok0; cbn [negb]; [|intros H; discriminate H].
    unfold ret at 1.
    match goal with
    | |- (let (_, _) := ?m ?w1 in _) = _ -> _ =>
        destruct (m w1) as [[x|e] w2] eqn:Hm; [|intros H; discriminate H];
        intros H; injection H as <- <-;
        destruct (pipeline_tail _ _ w w1 [(GetImage src, w_stats w)] _ _
                    eq_refl eq_refl eq_refl eq_refl Hm)
          as (Hs & Hsl & up & Hr & Hv & Hsrv)
    end.
    split; [exact Hs|]. split; [exact Hsl|].
    do 4 eexists. split; [exact Hr|]. split; [reflexivity|]. split; [exact Hv|].
    split; [discriminate|]. split; [|exact Hsrv].
    intros _. exists lat0, r0. auto.
  - unfold bind at 1, read_file.
    destruct (files w src) as [b|] eqn:Hf; [|intros H; discriminate H].
    cbv zeta.
    destruct (String.eqb (to_lower (extname src)) ".png");
      [|destruct (String.eqb (to_lower (extname src)) ".jpg"
                  || String.eqb (to_lower (extname src)) ".jpeg")%bool;
        [|intros H; discriminate H]];
      unfold ret at 1; cbv iota;
      match goal with
      | |- (let (_, _) := ?m w in _) = _ -> _ =>
          destruct (m w) as [[x|e] w2] eqn:Hm; [|intros H; discriminate H];
          intros H; injection H as <- <-;
          destruct (pipeline_tail _ _ w w [] _ _
                      ltac:(rewrite app_nil_r; reflexivity) eq_refl eq_refl eq_refl Hm)
            as (Hs & Hsl & up & Hr & Hv & Hsrv)
      end;
      (split; [exact Hs|]); (split; [exact Hsl|]);
      do 4 eexists; (split; [exact Hr|]); (split; [reflexivity|]); (split; [exact Hv|]);
      (split; [intros _; reflexivity|]); (split; [discriminate|exact Hsrv]).
Qed.

Lemma http_backoff_le (a : nat) : http_backoff a <= 10000.
Proof. unfold http_backoff. apply Q.le_min_r. Qed.

Lemma catch_backoff_le (a : nat) : catch_backoff a <= 10000.
Proof.
  unfold catch_backoff. eapply Qle_trans; [apply Q.le_min_r|]. unfold Qle; cbn; lia.
Qed.

Lemma poll_interval_le : POLL_INTERVAL <= 10000.
Proof. unfold POLL_INTERVAL, Qle; cbn; lia. Qed.

(** One iteration: exactly one status request, at most one sleep of at most 10 s. *)
Lemma poll_iteration_resources (orderId : string) (startTime : Q) (attempt : nat) (w : world) :
  let w' := snd (try_catch (poll_attempt orderId startTime attempt) (poll_catch attempt) w) in
  (exists st, requests w' = requests w ++ [(PostOrderStatus orderId, st)])
  /\ server w' = server w
  /\ exists fs, sleeps w' = sleeps w ++ fs /\ (length fs <= 1)%nat
                /\ Forall (fun d => d <= 10000) fs.
Proof.
  unfold try_catch, poll_attempt, poll_catch, bind, fetch, json, ret, throw, sleep,
    modify_stats, get_stats, put_stats, now.
  split_on_tests; cbn [snd requests server sleeps set_stats];
    (split; [eexists; reflexivity|]); (split; [reflexivity|]);
    first [ exists []; rewrite app_nil_r; split; [reflexivity | split; [cbn; lia | constructor]]
          | eexists; split; [reflexivity | split; [cbn; lia | repeat constructor]] ];
    first [apply http_backoff_le | apply catch_backoff_le | apply poll_interval_le].
Qed.

Lemma poll_loop_resources (fuel : nat) (orderId : string) (startTime : Q) :
  forall attempt w,
  let w' := snd (poll_loop fuel orderId startTime attempt w) in
  exists fr fs,
    requests w' = requests w ++ fr /\ (length fr <= fuel)%nat
    /\ Forall (fun p => fst p = PostOrderStatus orderId) fr
    /\ sleeps w' = sleeps w ++ fs /\ (length fs <= length fr)%nat
    /\ Forall (fun d => d <= 10000) fs.
Proof.
  induction fuel as [|f IH]; intros attempt w; cbn [poll_loop].
  - exists [], []. rewrite !app_nil_r. repeat split; auto.
  - destruct (Nat.leb attempt MAX_RETRIES).
    + pose proof (poll_iteration_resources orderId startTime attempt w) as
        ((st & Hr1) & _ & fs1 & Hs1 & Hl1 & Hf1).
      unfold bind.
      destruct (try_catch (poll_attempt orderId startTime attempt) (poll_catch attempt) w)
        as [[[o|]|e] w1]; cbn [snd] in *.
      * exists [(PostOrderStatus orderId, st)], fs1. cbn. repeat split; auto; lia.
      * destruct (IH (S attempt) w1) as (fr & fs & Hr & Hl & Hf & Hs & Hls & Hfs).
        exists ((PostOrderStatus orderId, st) :: fr), (fs1 ++ fs).
        rewrite Hr, Hs, Hr1, Hs1, <- !app_assoc. cbn.
        repeat split; auto.
        -- lia.
        -- rewrite length_app. lia.
        -- apply Forall_app; auto.
      * exists [(PostOrderStatus orderId, st)], fs1. cbn. repeat split; auto; lia.
    + exists [], []. cbn. rewrite !app_nil_r. repeat split; auto; lia.
Qed.

Lemma sum_le_bound (fs : list Q) :
  Forall (fun d => d <= 10000) fs ->
  fold_right Qplus 0 fs <= inject_Z (Z.of_nat (length fs)) * 10000.
Proof.
  induction 1 as [|d fs Hd Hfs IH]; cbn [fold_right length].
  - unfold Qle; cbn; lia.
  - rewrite Nat2Z.inj_succ. unfold Z.succ. rewrite inject_Z_plus.
    change (inject_Z 1) with 1.
    setoid_replace ((inject_Z (Z.of_nat (length fs)) + 1) * 10000)
      with (10000 + inject_Z (Z.of_nat (length fs)) * 10000) by ring.
    apply Qplus_le_compat; assumption.
Qed.

(** Whatever the service answers, [pollFaceSwapStatus] sends at most five
    requests, all of them status requests for the given order id.  It sleeps
    at most once per request, each sleep lasting at most 10 s, so it waits at
    most 50 s in total. *)
Theorem pollFaceSwapStatus_bounded (orderId : string) (w : world) :
  let w' := snd (pollFaceSwapStatus orderId w) in
  exists fr fs,
    requests w' = requests w ++ fr /\ (length fr <= 5)%nat
    /\ Forall (fun p => fst p = PostOrderStatus orderId) fr
    /\ sleeps w' = sleeps w ++ fs /\ (length fs <= length fr)%nat
    /\ Forall (fun d => d <= 10000) fs
    /\ fold_right Qplus 0 fs <= 50000.
Proof.
  destruct (poll_loop_resources MAX_RETRIES orderId (clock w) 1 w)
    as (fr & fs & Hr & Hl & Hf & Hs & Hls & Hfs).
  exists fr, fs. unfold pollFaceSwapStatus, bind, now. cbn [snd] in *.
  repeat split; auto.
  eapply Qle_trans; [apply sum_le_bound; exact Hfs|].
  assert (H5 : (Z.of_nat (length fs) <= 5)%Z) by (unfold MAX_RETRIES in Hl; lia).
  unfold Qle, inject_Z; cbn. lia.
Qed.

Section AllHttpError.

Variable orderId : string.
Variable srv : nat -> call -> Q * reply.

(** Every status request gets a non-2xx response. *)
Hypothesis srv_http_error : forall n, exists lat r,
  srv n (PostOrderStatus orderId) = (lat, Received r) /\ res_ok r = false.

Lemma http_error_iteration (startTime : Q) (attempt : nat) (w : world) :
  server w = srv ->
  let '(res, w1) := try_catch (poll_attempt orderId startTime attempt) (poll_catch attempt) w in
  w_stats w1 = w_stats w
  /\ map fst (requests w1) = map fst (requests w) ++ [PostOrderStatus orderId]
  /\ server w1 = srv
  /\ (if Nat.eqb attempt MAX_RETRIES
      then res = Err (Error polling_failed_message) /\ sleeps w1 = sleeps w
      else res = Ok None /\ sleeps w1 = sleeps w ++ [http_backoff attempt]).
Proof.
  intros Hs.
  destruct (srv_http_error (length (requests w))) as (lat & r & Hsrv & Hok).
  unfold try_catch, poll_attempt, bind, fetch, sleep, ret, throw.
  rewrite Hs, Hsrv. run. rewrite Hok. cbn [negb].
  destruct (Nat.eqb attempt MAX_RETRIES) eqn:He; cbn.
  - unfold poll_catch. rewrite He. cbn.
    repeat split; rewrite ?map_app; reflexivity.
  - repeat split; rewrite ?map_app; reflexivity.
Qed.

Lemma http_error_loop (startTime : Q) (fuel : nat) :
  forall attempt w, server w = srv -> (attempt + fuel = S MAX_RETRIES)%nat -> (1 <= fuel)%nat ->
  let '(res, w') := poll_loop fuel orderId startTime attempt w in
  res = Err (Error polling_failed_message)
  /\ w_stats w' = w_stats w
  /\ map fst (requests w') = map fst (requests w) ++ repeat (PostOrderStatus orderId) fuel
  /\ sleeps w' = sleeps w ++ map http_backoff (seq attempt (pred fuel)).
Proof.
  induction fuel as [|g IH]; intros attempt w Hs Hf H1; [lia|]. cbn [poll_loop].
  rewrite (leb_max_true attempt) by (unfold MAX_RETRIES in *; lia).
  pose proof (http_error_iteration startTime attempt w Hs) as Hit.
  unfold bind at 1.
  destruct (try_catch (poll_attempt orderId startTime attempt) (poll_catch attempt) w)
    as [res1 w1].
  destruct Hit as (Hst & Hrq & Hs1 & Hcase).
  destruct g as [|g'].
  - rewrite (proj2 (Nat.eqb_eq attempt MAX_RETRIES)) in Hcase by lia.
    destruct Hcase as [-> Hsl]. cbn. rewrite Hsl, !app_nil_r.
    repeat split; assumption.
  - rewrite (eqb_max_false attempt) in Hcase by (unfold MAX_RETRIES in *; lia).
    destruct Hcase as [-> Hsl].
    specialize (IH (S attempt) w1 Hs1 ltac:(lia) ltac:(lia)).
    destruct (poll_loop (S g') orderId startTime (S attempt) w1) as [res' w'].
    destruct IH as (Hr' & Hst' & Hrq' & Hsl').
    repeat split.
    + exact Hr'.
    + congruence.
    + rewrite Hrq', Hrq, <- app_assoc. reflexivity.
    + rewrite Hsl', Hsl, <- app_assoc. reflexivity.
Qed.

End AllHttpError.

(** If every status request gets a non-2xx reply, [pollFaceSwapStatus] sends
    five status requests and backs off [min(3000 * 1.5^n, 10000)] ms after
    attempts 1 to 4 (4500, 6750, 10000, 10000).  It then rejects with
    ["Status polling failed after 5 attempts"] and leaves the stats unchanged:
    this failure is not counted in [failedSwaps]. *)
Theorem pollFaceSwapStatus_http_errors_uncounted (orderId : string) (w : world) :
  (forall n, exists lat r,
     server w n (PostOrderStatus orderId) = (lat, Received r) /\ res_ok r = false) ->
  exists w',
    pollFaceSwapStatus orderId w
      = (Err (Error "Status polling failed after 5 attempts"), w')
    /\ w_stats w' = w_stats w
    /\ map fst (requests w') = map fst (requests w) ++ repeat (PostOrderStatus orderId) 5
    /\ sleeps w' = sleeps w ++ map http_backoff [1; 2; 3; 4]%nat
    /\ Forall2 Qeq (map http_backoff [1; 2; 3; 4]%nat) [4500; 6750; 10000; 10000].
Proof.
  intros Hh.
  pose proof (http_error_loop orderId (server w) Hh (clock w) MAX_RETRIES 1 w eq_refl eq_refl
                ltac:(unfold MAX_RETRIES; lia)) as H.
  unfold pollFaceSwapStatus, bind, now.
  destruct (poll_loop MAX_RETRIES orderId (clock w) 1 w) as [res w'].
  destruct H as (-> & Hst & Hrq & Hsl).
  exists w'. repeat split; try assumption.
  repeat constructor; vm_compute; reflexivity.
Qed.

Lemma requestFaceSwap_stats_change (a b : string) (w : world) :
  match requestFaceSwap a b w with
  | (Ok _, w') => w_stats w' = incr_total (w_stats w)
  | (Err _, w') => w_stats w' = incr_failed (incr_total (w_stats w))
  end.
Proof.
  unfold requestFaceSwap, try_catch, bind, modify_stats, get_stats, put_stats,
    fetch, json, ret, throw.
  run.
  destruct (server w (length (requests w)) (PostFaceSwap a b)) as [lat rp].
  split_on_tests; reflexivity.
Qed.

Lemma quiet_all2 {A B} (first : bool) (m1 : M A) (m2 : M B) :
  quiet m1 -> quiet m2 -> quiet (all2 first m1 m2).
Proof.
  intros H1 H2. unfold all2, settle_both. destruct first; quiet_tac; assumption.
Qed.

(** One [performFaceSwap] job increases [totalRequests] by at most one and
    never decreases a counter.  [successfulSwaps + failedSwaps] grows by at
    most the growth of [totalRequests], so the invariant
    [successfulSwaps + failedSwaps <= totalRequests] is preserved. *)
Theorem performFaceSwap_stats_invariant (source_first : bool) (sourceImage targetImage : string)
    (sourceIsUrl targetIsUrl : bool) (w : world) :
  let s := w_stats w in
  let s' := w_stats (snd (performFaceSwap source_first sourceImage targetImage
                                          sourceIsUrl targetIsUrl w)) in
  (totalRequests s <= totalRequests s' <= S (totalRequests s))%nat
  /\ (successfulSwaps s' + failedSwaps s'
      <= successfulSwaps s + failedSwaps s + (totalRequests s' - totalRequests s))%nat
  /\ (successfulSwaps s <= successfulSwaps s')%nat /\ (failedSwaps s <= failedSwaps s')%nat
  /\ ((successfulSwaps s + failedSwaps s <= totalRequests s)%nat ->
      (successfulSwaps s' + failedSwaps s' <= totalRequests s')%nat).
Proof.
  cbv zeta.
  assert (Hq : quiet (all2 source_first (processImage sourceImage sourceIsUrl)
                                        (processImage targetImage targetIsUrl)))
    by (apply quiet_all2; apply quiet_processImage).
  specialize (Hq w).
  unfold performFaceSwap, try_catch, bind. cbv beta.
  destruct (all2 source_first (processImage sourceImage sourceIsUrl)
                              (processImage targetImage targetIsUrl) w)
    as [[urls|e] w1]; destruct Hq as [Hs1 _].
  2:{ cbn [throw snd]. rewrite Hs1. lia. }
  pose proof (requestFaceSwap_stats_change (fst urls) (snd urls) w1) as Hr.
  destruct (requestFaceSwap (fst urls) (snd urls) w1) as [[oid|e] w2].
  2:{ cbn [throw snd]. rewrite Hr, Hs1. cbn [incr_failed incr_total totalRequests successfulSwaps failedSwaps]. lia. }
  assert (Hp : poll_stats_change (w_stats w2) (w_stats (snd (pollFaceSwapStatus oid w2))))
    by (unfold pollFaceSwapStatus, bind, now; apply poll_loop_stats).
  destruct (pollFaceSwapStatus oid w2) as [[out|e] w3];
    cbn [snd throw ret] in *; unfold poll_stats_change in Hp; rewrite Hr, Hs1 in Hp;
    (destruct Hp as [Hp | [Hp | [t Hp]]]; rewrite Hp;
     cbn [incr_failed incr_total record_success totalRequests successfulSwaps failedSwaps]; lia).
Qed.

Lemma existsb_eqb_In (x : string) (l : list string) :
  existsb (String.eqb x) l = true <-> In x l.
Proof.
  rewrite existsb_exists. split.
  - intros (y & Hy & E). apply String.eqb_eq in E. subst. exact Hy.
  - intros H. exists x. split; [exact H | apply String.eqb_refl].
Qed.

(** [validateFiles]: [isValid] holds exactly when [errors] is empty, and there
    are at most four errors.  The files are accepted exactly when both
    [source] and [target] are non-empty arrays whose first files are at most
    2 MiB and have one of the MIME types [image/jpeg], [image/png],
    [image/jpg]; further files of an array are never checked.  A missing
    files object or a missing field gives the single "required" error, and
    an empty array raises a [TypeError]. *)
Theorem validateFiles_contract (files : option uploaded) :
  (forall ok errors, validateFiles files = Ok (ok, errors) ->
     (ok = true <-> errors = []) /\ (length errors <= 4)%nat)
  /\ ((exists errors, validateFiles files = Ok (true, errors))
      <-> exists f src srcs tgt tgts,
            files = Some f /\ up_source f = Some (src :: srcs) /\ up_target f = Some (tgt :: tgts)
            /\ (file_size src <= 2 * 1024 * 1024)%Z /\ (file_size tgt <= 2 * 1024 * 1024)%Z
            /\ In (file_mimetype src) ["image/jpeg"; "image/png"; "image/jpg"]
            /\ In (file_mimetype tgt) ["image/jpeg"; "image/png"; "image/jpg"])
  /\ ((files = None \/ exists f, files = Some f /\ (up_source f = None \/ up_target f = None)) ->
      validateFiles files = Ok (false, ["Both source and target images are required"]))
  /\ (forall f, files = Some f ->
      (up_source f = Some [] /\ up_target f <> None
       \/ up_target f = Some [] /\ up_source f <> None) ->
      validateFiles files = Err undefined_size_error).
Proof.
  split; [|split; [|split]].
  - intros ok errors. unfold validateFiles.
    destruct files as [f|]; [|intros H; injection H as <- <-; cbn; split; [split; discriminate | lia]].
    destruct (up_source f) as [[|src srcs]|], (up_target f) as [[|tgt tgts]|];
      try (intros H; discriminate H);
      try (intros H; injection H as <- <-; cbn; split; [split; discriminate | lia]).
    cbv zeta.
    destruct (Z.ltb _ (file_size src)), (Z.ltb _ (file_size tgt)),
      (existsb (String.eqb (file_mimetype src)) _),
      (existsb (String.eqb (file_mimetype tgt)) _);
      intros H; injection H as <- <-; cbn; (split; [split; first [discriminate | reflexivity] | lia]).
  - unfold validateFiles. split.
    + intros [errors H].
      destruct files as [f|]; [|discriminate H].
      destruct (up_source f) as [[|src srcs]|] eqn:Es, (up_target f) as [[|tgt tgts]|] eqn:Et;
        try discriminate H.
      exists f, src, srcs, tgt, tgts. cbv zeta in H.
      destruct (Z.ltb _ (file_size src)) eqn:E1, (Z.ltb _ (file_size tgt)) eqn:E2,
        (existsb (String.eqb (file_mimetype src)) _) eqn:E3,
        (existsb (String.eqb (file_mimetype tgt)) _) eqn:E4; try discriminate H.
      apply Z.ltb_ge in E1, E2. apply existsb_eqb_In in E3, E4.
      repeat split; auto.
    + intros (f & src & srcs & tgt & tgts & -> & Es & Et & H1 & H2 & H3 & H4).
      rewrite Es, Et. cbv zeta.
      apply Z.ltb_ge in H1, H2. apply existsb_eqb_In in H3, H4.
      rewrite H1, H2, H3, H4. eexists; reflexivity.
  - intros [-> | (f & -> & [H | H])]; unfold validateFiles; [reflexivity | rewrite H ..];
      [reflexivity | destruct (up_source f) as [[|]|]; reflexivity].
  - intros f -> [[Hs Ht] | [Ht Hs]]; unfold validateFiles.
    + rewrite Hs. destruct (up_target f) as [[|]|]; [reflexivity | reflexivity | contradiction].
    + rewrite Ht. destruct (up_source f) as [[|]|]; [reflexivity | reflexivity | contradiction].
Qed.

Open Scope string_scope.

Lemma string_app_assoc (x y z : string) : (x ++ y) ++ z = x ++ (y ++ z).
Proof. induction x as [|c x IH]; cbn; [reflexivity | rewrite IH; reflexivity]. Qed.

Lemma starts_with_app_long (p x y : string) :
  (String.length p <= String.length x)%nat -> starts_with p (x ++ y) = starts_with p x.
Proof.
  revert x. induction p as [|c p IH]; intros x Hl; [reflexivity|].
  destruct x as [|d x]; cbn in Hl; [lia|]. cbn. rewrite IH by lia. reflexivity.
Qed.

Lemma substring_prefix (p r : string) (m : nat) :
  substring (String.length p) m (p ++ r) = substring 0 m r.
Proof. induction p as [|c p IH]; cbn; [reflexivity | exact IH]. Qed.

Lemma substring_whole (r : string) (m : nat) :
  (String.length r <= m)%nat -> substring 0 m r = r.
Proof.
  revert m. induction r as [|c r IH]; intros m Hm; destruct m; cbn in *; try lia; auto.
  rewrite IH by lia. reflexivity.
Qed.

Lemma length_string_app (x y : string) :
  String.length (x ++ y) = (String.length x + String.length y)%nat.
Proof. induction x as [|c x IH]; cbn; [reflexivity | rewrite IH; reflexivity]. Qed.

Lemma replace_first_absent (pat rep s : string) :
  includes pat s = false -> replace_first pat rep s = s.
Proof.
  induction s as [|c s IH]; intros H; cbn [includes] in H;
    apply Bool.orb_false_iff in H as [Hs Hi];
    cbn [replace_first]; rewrite Hs; [reflexivity|].
  rewrite IH by exact Hi. reflexivity.
Qed.

Lemma replace_first_eq (pat rep s : string) :
  replace_first pat rep s
  = if starts_with pat s then rep ++ substring (String.length pat) (String.length s) s
    else match s with
         | EmptyString => EmptyString
         | String c s' => String c (replace_first pat rep s')
         end.
Proof. destruct s; reflexivity. Qed.

Lemma replace_first_first (rep a rest : string) :
  includes "/upload/" (a ++ "/upload") = false ->
  replace_first "/upload/" rep (a ++ "/upload/" ++ rest) = a ++ rep ++ rest.
Proof.
  induction a as [|c a IH]; intros H.
  - change (replace_first "/upload/" rep ("/upload/" ++ rest) = rep ++ rest).
    rewrite replace_first_eq, starts_with_app.
    f_equal. rewrite substring_prefix. apply substring_whole.
    rewrite length_string_app. lia.
  - change (includes "/upload/" (String c (a ++ "/upload")) = false) in H.
    change (replace_first "/upload/" rep (String c (a ++ "/upload/" ++ rest))
            = String c (a ++ rep ++ rest)).
    cbn [includes] in H. apply Bool.orb_false_iff in H as [Hs Hi].
    rewrite replace_first_eq.
    replace (String c (a ++ "/upload/" ++ rest)) with (String c (a ++ "/upload") ++ "/" ++ rest)
      by (change (String c ((a ++ "/upload") ++ "/" ++ rest) = String c (a ++ "/upload/" ++ rest));
          rewrite string_app_assoc; reflexivity).
    rewrite starts_with_app_long
      by (cbn [String.length]; rewrite length_string_app; cbn; lia).
    rewrite Hs. f_equal. apply IH. exact Hi.
Qed.

(** A download request with an empty id or type, an id that is not an
    ObjectId, or a type other than [source], [target] or [swapped] is
    answered with status 400 whatever the database holds: the submission is
    never looked up. *)
Theorem downloadImage_bad_request_no_lookup (objectIdValid : string -> bool)
    (db1 db2 : string -> option submission) (id type : string) :
  (id = "" \/ type = "" \/ objectIdValid id = false
   \/ ~ In type ["source"; "target"; "swapped"]) ->
  downloadImage objectIdValid db1 id type = downloadImage objectIdValid db2 id type
  /\ exists msg, downloadImage objectIdValid db1 id type = JsonError 400 msg.
Proof.
  intros H. unfold downloadImage.
  destruct (String.eqb id "" || String.eqb type "" || negb (objectIdValid id))%bool eqn:E1;
    [split; [reflexivity | eexists; reflexivity]|].
  apply Bool.orb_false_iff in E1 as [E1 E3]. apply Bool.orb_false_iff in E1 as [E1 E2].
  apply String.eqb_neq in E1, E2. apply Bool.negb_false_iff in E3.
  destruct (existsb (String.eqb type) ["source"; "target"; "swapped"]) eqn:E4.
  - apply existsb_eqb_In in E4. exfalso.
    destruct H as [H | [H | [H | H]]]; [contradiction | contradiction | congruence | contradiction].
  - split; [reflexivity | eexists; reflexivity].
Qed.

(** A download that redirects has found the submission and the image the type
    selects, with a non-empty URL.  The header is
    [attachment; filename="<type>_<sanitized name>_<id>.jpg"].  The redirect
    goes to the stored URL unchanged unless the URL contains ["cloudinary.com"]
    and ["/upload/"]; in that case only the first ["/upload/"] becomes
    ["/upload/fl_attachment/"]. *)
Theorem downloadImage_redirect (objectIdValid : string -> bool)
    (db : string -> option submission) (id type cd loc : string) :
  downloadImage objectIdValid db id type = RedirectAttachment cd loc ->
  exists sub name d url,
    objectIdValid id = true /\ db id = Some sub /\ sub_name sub = Some name
    /\ (type = "source" /\ sourceImage sub = Some d
        \/ type = "target" /\ targetImage sub = Some d
        \/ type = "swapped" /\ swappedImage sub = Some d)
    /\ img_url d = Some url /\ url <> ""
    /\ cd = "attachment; filename=" ++ dquote
              ++ (type ++ "_" ++ sanitize_name name ++ "_" ++ id ++ ".jpg") ++ dquote
    /\ (includes "cloudinary.com" url = false -> loc = url)
    /\ (includes "/upload/" url = false -> loc = url)
    /\ (forall a rest, url = a ++ "/upload/" ++ rest ->
        includes "/upload/" (a ++ "/upload") = false ->
        includes "cloudinary.com" url = true ->
        loc = a ++ "/upload/fl_attachment/" ++ rest).
Proof.
  unfold downloadImage.
  destruct (String.eqb id "" || String.eqb type "" || negb (objectIdValid id))%bool eqn:E1;
    [discriminate|].
  apply Bool.orb_false_iff in E1 as [_ E3]. apply Bool.negb_false_iff in E3.
  destruct (negb (existsb (String.eqb type) ["source"; "target"; "swapped"])) eqn:E4;
    [discriminate|].
  unfold getSubmissionById.
  destruct (db id) as [sub|] eqn:Hdb;
    [|destruct (includes "not found" _); discriminate].
  destruct (sub_name sub) as [name|] eqn:Hn; [|discriminate].
  (* the image the switch selects *)
  assert (Hsel : forall d fileName,
    (if String.eqb type "source" then
       (sourceImage sub, "source_" ++ sanitize_name name ++ "_" ++ id ++ ".jpg")
     else if String.eqb type "target" then
       (targetImage sub, "target_" ++ sanitize_name name ++ "_" ++ id ++ ".jpg")
     else (swappedImage sub, "swapped_" ++ sanitize_name name ++ "_" ++ id ++ ".jpg"))
      = (Some d, fileName) ->
    (type = "source" /\ sourceImage sub = Some d
     \/ type = "target" /\ targetImage sub = Some d
     \/ type = "swapped" /\ swappedImage sub = Some d)
    /\ fileName = type ++ "_" ++ sanitize_name name ++ "_" ++ id ++ ".jpg").
  { intros d fileName Hs.
    apply Bool.negb_false_iff, existsb_eqb_In in E4.
    destruct (String.eqb type "source") eqn:T1; [apply String.eqb_eq in T1; subst type;
      injection Hs as -> <-; auto|].
    destruct (String.eqb type "target") eqn:T2; [apply String.eqb_eq in T2; subst type;
      injection Hs as -> <-; auto|].
    apply String.eqb_neq in T1, T2.
    destruct E4 as [E | [E | [E | []]]]; [congruence | congruence | subst type].
    injection Hs as -> <-. auto. }
  destruct (if String.eqb type "source" then _ else _) as [[d|] fileName] eqn:Hs;
    [|discriminate].
  destruct (Hsel d fileName eq_refl) as [Hsel' ->].
  destruct (truthy (img_url d)) eqn:Ht; [|discriminate].
  destruct (truthy_js_or _ Ht) as [Hu Hne].
  intros H. injection H as <- <-.
  exists sub, name, d, (js_or (img_url d) "").
  do 6 (split; [first [assumption | reflexivity]|]).
  split; [reflexivity|]. split; [|split].
  - intros Hc. rewrite Hc. reflexivity.
  - intros Hup. destruct (includes "cloudinary.com" _); [|reflexivity].
    apply replace_first_absent. exact Hup.
  - intros a rest Hurl Hfirst Hc. rewrite Hc, Hurl. apply replace_first_first. exact Hfirst.
Qed.

(** The file-name sanitizer of [downloadImage] keeps the length of the name,
    leaves only ASCII letters, digits and [_], and keeps a purely
    alphanumeric name unchanged. *)
Theorem sanitize_name_safe (name : string) :
  String.length (sanitize_name name) = String.length name
  /\ (forall c, In c (list_ascii_of_string (sanitize_name name)) ->
      is_alnum c = true \/ c = "_"%char)
  /\ ((forall c, In c (list_ascii_of_string name) -> is_alnum c = true) ->
      sanitize_name name = name).
Proof.
  induction name as [|c name IH]; cbn.
  - split; [reflexivity|]. split; [intros c [] | intros _; reflexivity].
  - destruct IH as (IHl & IHc & IHid). split; [|split].
    + rewrite IHl. reflexivity.
    + intros x [<- | Hx]; [|exact (IHc x Hx)].
      destruct (is_alnum c) eqn:E; [left; exact E | right; reflexivity].
    + intros H. rewrite (H c (or_introl eq_refl)), IHid; [reflexivity|].
      intros x Hx. exact (H x (or_intror Hx)).
Qed.

Lemma starts_with_app_includes (p s : string) : includes p (p ++ s) = true.
Proof.
  assert (E : forall x, includes p x
                        = (starts_with p x
                           || match x with EmptyString => false | String _ x' => includes p x' end)%bool)
    by (destruct x; reflexivity).
  rewrite E, starts_with_app. reflexivity.
Qed.

Lemma starts_with_length (p x : string) :
  starts_with p x = true -> (String.length p <= String.length x)%nat.
Proof.
  revert x. induction p as [|c p IH]; intros x H; cbn; [lia|].
  destruct x as [|d x]; [discriminate|]. cbn in H.
  apply Bool.andb_true_iff in H as [_ H]. cbn. specialize (IH x H). lia.
Qed.

Lemma starts_with_app_short (p x b : string) :
  (String.length x < String.length p)%nat -> starts_with p (x ++ b) = true ->
  starts_with x p = true.
Proof.
  revert p. induction x as [|c x IH]; intros p Hl H; [reflexivity|].
  destruct p as [|d p]; cbn in Hl; [lia|].
  cbn in H |- *. apply Bool.andb_true_iff in H as [Hd H].
  apply Ascii.eqb_eq in Hd. subst d. rewrite Ascii.eqb_refl.
  apply IH; [lia | exact H].
Qed.

Lemma includes_app_no_overlap (p a b : string) :
  p <> EmptyString -> overlap p a = false ->
  includes p (a ++ b) = (includes p a || includes p b)%bool.
Proof.
  intros Hp. induction a as [|c a IH]; intros Ho.
  - destruct p as [|d p]; [contradiction|]. reflexivity.
  - cbn [overlap] in Ho. apply Bool.orb_false_iff in Ho as [Hs Ho].
    change (String c a ++ b) with (String c (a ++ b)).
    cbn [includes]. rewrite IH by exact Ho.
    assert (E : starts_with p (String c (a ++ b)) = starts_with p (String c a)).
    { change (String c (a ++ b)) with (String c a ++ b).
      destruct (Nat.ltb (String.length (String c a)) (String.length p)) eqn:El.
      - apply Nat.ltb_lt in El. cbn [andb] in Hs.
        destruct (starts_with p (String c a ++ b)) eqn:E1.
        + rewrite (starts_with_app_short _ _ _ El E1) in Hs. discriminate.
        + destruct (starts_with p (String c a)) eqn:E2; [|reflexivity].
          apply starts_with_length in E2. lia.
      - apply Nat.ltb_ge in El. apply starts_with_app_long. exact El. }
    rewrite E. destruct (starts_with p (String c a)), (includes p a), (includes p b); reflexivity.
Qed.

(** The rejection of [requestFaceSwap] on a non-2xx reply. *)
Lemma requestFaceSwap_http_error (a b : string) (w : world) (lat : Q) (r : response) :
  server w (length (requests w)) (PostFaceSwap a b) = (lat, Received r) ->
  res_ok r = false ->
  fst (requestFaceSwap a b w)
  = Err (Error
      (if Z.eqb (res_status r) 403 then
         "Face Swap API access denied (403). Please check your subscription plan and ensure Face Swap API is enabled for your account. Response: " ++ res_text r
       else if Z.eqb (res_status r) 402 then
         "Insufficient credits (402). Please add credits to your LightX account. Response: " ++ res_text r
       else if Z.eqb (res_status r) 400 then
         "Invalid request (400). Please check that both images contain clear, visible faces. Response: " ++ res_text r
       else
         "Face swap request failed: " ++ (string_of_Z (res_status r) ++ " - " ++ res_text r))).
Proof.
  intros Hsrv Hok.
  unfold requestFaceSwap, try_catch, bind, modify_stats, get_stats, put_stats, fetch, ret, throw.
  run. rewrite Hsrv. run. rewrite Hok. cbn [negb].
  destruct (Z.eqb (res_status r) 403); [reflexivity|].
  destruct (Z.eqb (res_status r) 402); [reflexivity|].
  destruct (Z.eqb (res_status r) 400); reflexivity.
Qed.

Lemma userErrorMessage_generic (c t : string) :
  includes "Face swap" c = false -> overlap "Face swap" c = false ->
  includes "upload" c = false -> overlap "upload" c = false ->
  includes "validation" c = false -> overlap "validation" c = false ->
  includes "database" c = false -> overlap "database" c = false ->
  includes "Face swap" t = false -> includes "upload" t = false ->
  includes "validation" t = false -> includes "database" t = false ->
  userErrorMessage (c ++ t) = "An unexpected error occurred during processing.".
Proof.
  intros C1 O1 C2 O2 C3 O3 C4 O4 T1 T2 T3 T4. unfold userErrorMessage.
  rewrite !includes_app_no_overlap by (discriminate || assumption).
  rewrite C1, C2, C3, C4, T1, T2, T3, T4. reflexivity.
Qed.

(** When job submission gets a non-2xx reply whose text contains none of
    ["Face swap"], ["upload"], ["validation"], ["database"], [handleSubmission]
    shows the generic ["An unexpected error occurred during processing."] for
    the statuses 400, 402 and 403 (their messages say "Face Swap", not
    "Face swap").  For every other status it shows
    ["Face swap processing failed. Please try with different images."]. *)
Theorem requestFaceSwap_rejections_shown (a b : string) (w : world) (lat : Q) (r : response) :
  server w (length (requests w)) (PostFaceSwap a b) = (lat, Received r) ->
  res_ok r = false ->
  includes "Face swap" (res_text r) = false -> includes "upload" (res_text r) = false ->
  includes "validation" (res_text r) = false -> includes "database" (res_text r) = false ->
  exists e,
    fst (requestFaceSwap a b w) = Err e
    /\ userErrorMessage (err_message e)
       = if existsb (Z.eqb (res_status r)) [400; 402; 403]%Z
         then "An unexpected error occurred during processing."
         else "Face swap processing failed. Please try with different images.".
Proof.
  intros Hsrv Hok H1 H2 H3 H4.
  rewrite (requestFaceSwap_http_error a b w lat r Hsrv Hok).
  eexists; split; [reflexivity|]. cbn [err_message Error].
  destruct (Z.eqb (res_status r) 403) eqn:E403;
    [|destruct (Z.eqb (res_status r) 402) eqn:E402;
      [|destruct (Z.eqb (res_status r) 400) eqn:E400]].
  - apply Z.eqb_eq in E403. rewrite E403.
    apply userErrorMessage_generic; first [reflexivity | assumption].
  - apply Z.eqb_eq in E402. rewrite E402.
    apply userErrorMessage_generic; first [reflexivity | assumption].
  - apply Z.eqb_eq in E400. rewrite E400.
    apply userErrorMessage_generic; first [reflexivity | assumption].
  - apply Z.eqb_neq in E403, E402, E400.
    replace (existsb (Z.eqb (res_status r)) [400; 402; 403]%Z) with false.
    + unfold userErrorMessage.
      change ("Face swap request failed: " ++ (string_of_Z (res_status r) ++ " - " ++ res_text r))
        with ("Face swap" ++ (" request failed: " ++ (string_of_Z (res_status r) ++ " - "
                                                    ++ res_text r))).
      rewrite starts_with_app_includes. reflexivity.
    + symmetry. cbn. rewrite (proj2 (Z.eqb_neq _ _) E403), (proj2 (Z.eqb_neq _ _) E402),
        (proj2 (Z.eqb_neq _ _) E400). reflexivity.
Qed.

(** * Witnesses of the further properties *)

(** A world whose only file, [empty.jpg], has 0 bytes. *)
Definition sample_world_empty : world :=
  mkWorld reset_stats 0 [] []
          (fun p => if String.eqb p "empty.jpg" then Some [] else None)
          (fun _ _ => (250, Received (sample_response 200 "init"))).

Lemma processImage_local_offline_failures_witness :
  (files sample_world_files "missing.jpg" = None
   /\ processImage "missing.jpg" false sample_world_files
      = (Err (Error ("File not found: " ++ "missing.jpg")), sample_world_files))
  /\ (files sample_world_files "target.png" = Some (x89 :: x50 :: x4e :: x47 :: repeat x00 496)
      /\ validateImageBuffer (x89 :: x50 :: x4e :: x47 :: repeat x00 496) "image/png" <> []
      /\ processImage "target.png" false sample_world_files
         = (Err (Error ("Image validation failed: "
                        ++ join ", " (map render (validateImageBuffer
                             (x89 :: x50 :: x4e :: x47 :: repeat x00 496) "image/png")))),
            sample_world_files))
  /\ (files sample_world_empty "empty.jpg" = Some []
      /\ processImage "empty.jpg" false sample_world_empty
         = (Err (Error ("Image validation failed: "
                        ++ "Image size 0 bytes is too small. Minimum size is 1KB, "
                        ++ "Invalid image file format or corrupted image data")),
            sample_world_empty)).
Proof.
  destruct (processImage_local_offline_failures "empty.jpg" sample_world_empty)
    as [_ [_ H4]].
  assert (Hf4 : files sample_world_empty "empty.jpg" = Some []) by reflexivity.
  assert (Hv4 : validateImageBuffer [] "image/jpeg" <> []) by (vm_compute; discriminate).
  assert (Hm4 : join ", " (map render (validateImageBuffer [] "image/jpeg"))
                = "Image size 0 bytes is too small. Minimum size is 1KB, "
                  ++ "Invalid image file format or corrupted image data")
    by (vm_compute; reflexivity).
  destruct (processImage_local_offline_failures "missing.jpg" sample_world_files)
    as [H1 _].
  destruct (processImage_local_offline_failures "target.png" sample_world_files)
    as [_ [_ H3]].
  assert (Hf1 : files sample_world_files "missing.jpg" = None) by reflexivity.
  assert (Hf3 : files sample_world_files "target.png"
                = Some (x89 :: x50 :: x4e :: x47 :: repeat x00 496)) by reflexivity.
  assert (Hv : validateImageBuffer (x89 :: x50 :: x4e :: x47 :: repeat x00 496) "image/png" <> [])
    by (vm_compute; discriminate).
  split; [split; [exact Hf1 | exact (H1 Hf1)]|].
  split; [split; [exact Hf3|]; split; [exact Hv|];
          exact (H3 _ "image/png" Hf3 (or_introl (conj eq_refl eq_refl)) Hv)|].
  split; [exact Hf4|]. rewrite <- Hm4.
  exact (H4 [] "image/jpeg" Hf4 (or_intror (conj (or_introl eq_refl) eq_refl)) Hv4).
Defined.

(** A successful pipeline: the 2000-byte JPEG read from disk, a well-formed
    negotiation reply and a 200 reply to the PUT. *)
Lemma processImage_success_witness :
  processImage "source.jpg" false sample_world_files
    = (Ok "https://s3.example/img", snd (processImage "source.jpg" false sample_world_files))
  /\ let w' := snd (processImage "source.jpg" false sample_world_files) in
     w_stats w' = w_stats sample_world_files /\ sleeps w' = sleeps sample_world_files
     /\ exists b ct up pre,
          requests w' = (requests sample_world_files
                          ++ pre ++ [(PostUploadImageUrl (blen b) ct, w_stats sample_world_files);
                                     (PutUpload up ct (blen b), w_stats sample_world_files)])%list
          /\ map fst pre = []
          /\ validateImageBuffer b ct = []
          /\ (false = false -> files sample_world_files "source.jpg" = Some b)
          /\ (false = true -> exists lat0 r0,
                server sample_world_files (length (requests sample_world_files))
                       (GetImage "source.jpg") = (lat0, Received r0)
                /\ res_ok r0 = true /\ res_bytes r0 = b
                /\ ct = js_or (res_contentType r0) "image/jpeg")
          /\ exists lat r d,
               server sample_world_files (length (requests sample_world_files ++ pre)%list)
                      (PostUploadImageUrl (blen b) ct) = (lat, Received r)
               /\ res_ok r = true /\ res_json r = Some d /\ statusCode d = Some 2000%Z
               /\ body_uploadImage d = Some up /\ body_imageUrl d = Some "https://s3.example/img"
               /\ "https://s3.example/img" <> "".
Proof.
  assert (H : processImage "source.jpg" false sample_world_files
    = (Ok "https://s3.example/img", snd (processImage "source.jpg" false sample_world_files))).
  { apply injective_projections; [vm_compute; reflexivity | reflexivity]. }
  split; [exact H|].
  exact (processImage_success "source.jpg" false sample_world_files _ _ H).
Defined.

Lemma pollFaceSwapStatus_http_errors_uncounted_witness :
  (forall n, exists lat r,
     server (sample_world (Received (sample_response 500 "init"))) n
            (PostOrderStatus "order-1") = (lat, Received r) /\ res_ok r = false)
  /\ exists w',
    pollFaceSwapStatus "order-1" (sample_world (Received (sample_response 500 "init")))
      = (Err (Error "Status polling failed after 5 attempts"), w')
    /\ w_stats w' = reset_stats
    /\ map fst (requests w') = ([] ++ repeat (PostOrderStatus "order-1") 5)%list
    /\ sleeps w' = ([] ++ map http_backoff [1; 2; 3; 4]%nat)%list
    /\ Forall2 Qeq (map http_backoff [1; 2; 3; 4]%nat) [4500; 6750; 10000; 10000].
Proof.
  assert (H : forall n, exists lat r,
     server (sample_world (Received (sample_response 500 "init"))) n
            (PostOrderStatus "order-1") = (lat, Received r) /\ res_ok r = false).
  { intros n. exists 250%Q, (sample_response 500 "init"). split; reflexivity. }
  split; [exact H | exact (pollFaceSwapStatus_http_errors_uncounted "order-1" _ H)].
Defined.

Definition sample_upload_ok : uploaded :=
  mkUploaded (Some [mkUploadedFile 2000 "image/jpeg"]) (Some [mkUploadedFile 3000 "image/png"]).

Definition sample_upload_nosrc : uploaded :=
  mkUploaded None (Some [mkUploadedFile 3000 "image/png"]).

Definition sample_upload_empty : uploaded :=
  mkUploaded (Some []) (Some [mkUploadedFile 3000 "image/png"]).

Lemma validateFiles_contract_witness :
  validateFiles (Some sample_upload_ok) = Ok (true, [])
  /\ validateFiles (Some sample_upload_nosrc)
     = Ok (false, ["Both source and target images are required"])
  /\ validateFiles None = Ok (false, ["Both source and target images are required"])
  /\ validateFiles (Some sample_upload_empty) = Err undefined_size_error
  /\ exists errors, validateFiles (Some sample_upload_ok) = Ok (true, errors).
Proof.
  destruct (validateFiles_contract (Some sample_upload_ok)) as (_ & [_ Hacc] & _ & _).
  destruct (validateFiles_contract (Some sample_upload_nosrc)) as (_ & _ & Hmiss & _).
  destruct (validateFiles_contract (Some sample_upload_empty)) as (_ & _ & _ & Hempty).
  destruct (validateFiles_contract None) as (_ & _ & Hnone & _).
  assert (Hne : up_target sample_upload_empty <> None) by discriminate.
  split; [vm_compute; reflexivity|].
  split; [exact (Hmiss (or_intror (ex_intro _ sample_upload_nosrc (conj eq_refl (or_introl eq_refl)))))|].
  split; [exact (Hnone (or_introl eq_refl))|].
  split; [exact (Hempty sample_upload_empty eq_refl (or_introl (conj eq_refl Hne)))|].
  apply Hacc.
  exists sample_upload_ok, (mkUploadedFile 2000 "image/jpeg"), [],
         (mkUploadedFile 3000 "image/png"), [].
  split; [reflexivity|]. split; [reflexivity|]. split; [reflexivity|].
  split; [cbn; lia|]. split; [cbn; lia|].
  split; cbn; [left; reflexivity | right; left; reflexivity].
Defined.

(** A database holding one submission with a Cloudinary source image. *)
Definition sample_db (id : string) : option submission :=
  if String.eqb id "65f0c0ffee0000000000abcd" then
    Some (mkSubmission (Some "Jo Ann")
            (Some (mkImageData (Some "https://res.cloudinary.com/demo/image/upload/v1/src.jpg")))
            None None)
  else None.

Lemma downloadImage_bad_request_no_lookup_witness :
  ~ In "thumbnail" ["source"; "target"; "swapped"]
  /\ downloadImage (fun _ => true) sample_db "65f0c0ffee0000000000abcd" "thumbnail"
     = downloadImage (fun _ => true) (fun _ => None) "65f0c0ffee0000000000abcd" "thumbnail"
  /\ exists msg,
       downloadImage (fun _ => true) sample_db "65f0c0ffee0000000000abcd" "thumbnail"
       = JsonError 400 msg.
Proof.
  assert (H : ~ In "thumbnail" ["source"; "target"; "swapped"]).
  { cbn. intros [H | [H | [H | []]]]; discriminate H. }
  split; [exact H|].
  exact (downloadImage_bad_request_no_lookup (fun _ => true) sample_db (fun _ => None)
           "65f0c0ffee0000000000abcd" "thumbnail" (or_intror (or_intror (or_intror H)))).
Defined.

Lemma downloadImage_redirect_witness :
  downloadImage (fun _ => true) sample_db "65f0c0ffee0000000000abcd" "source"
    = RedirectAttachment
        ("attachment; filename=" ++ dquote ++ "source_Jo_Ann_65f0c0ffee0000000000abcd.jpg" ++ dquote)
        "https://res.cloudinary.com/demo/image/upload/fl_attachment/v1/src.jpg"
  /\ exists sub name d url,
    (fun _ => true) "65f0c0ffee0000000000abcd" = true
    /\ sample_db "65f0c0ffee0000000000abcd" = Some sub /\ sub_name sub = Some name
    /\ ("source" = "source" /\ sourceImage sub = Some d
        \/ "source" = "target" /\ targetImage sub = Some d
        \/ "source" = "swapped" /\ swappedImage sub = Some d)
    /\ img_url d = Some url /\ url <> ""
    /\ "attachment; filename=" ++ dquote ++ "source_Jo_Ann_65f0c0ffee0000000000abcd.jpg" ++ dquote
       = "attachment; filename=" ++ dquote
           ++ ("source" ++ "_" ++ sanitize_name name ++ "_" ++ "65f0c0ffee0000000000abcd" ++ ".jpg")
           ++ dquote
    /\ (includes "cloudinary.com" url = false
        -> "https://res.cloudinary.com/demo/image/upload/fl_attachment/v1/src.jpg" = url)
    /\ (includes "/upload/" url = false
        -> "https://res.cloudinary.com/demo/image/upload/fl_attachment/v1/src.jpg" = url)
    /\ (forall a rest, url = a ++ "/upload/" ++ rest ->
        includes "/upload/" (a ++ "/upload") = false ->
        includes "cloudinary.com" url = true ->
        "https://res.cloudinary.com/demo/image/upload/fl_attachment/v1/src.jpg"
          = a ++ "/upload/fl_attachment/" ++ rest).
Proof.
  assert (H : downloadImage (fun _ => true) sample_db "65f0c0ffee0000000000abcd" "source"
    = RedirectAttachment
        ("attachment; filename=" ++ dquote ++ "source_Jo_Ann_65f0c0ffee0000000000abcd.jpg" ++ dquote)
        "https://res.cloudinary.com/demo/image/upload/fl_attachment/v1/src.jpg")
    by (vm_compute; reflexivity).
  split; [exact H | exact (downloadImage_redirect _ _ _ _ _ _ H)].
Defined.

Lemma sanitize_name_safe_witness :
  (forall c, In c (list_ascii_of_string "JoAnn42") -> is_alnum c = true)
  /\ sanitize_name "JoAnn42" = "JoAnn42"
  /\ sanitize_name "Jo Ann-Lee" = "Jo_Ann_Lee".
Proof.
  assert (H : forall c, In c (list_ascii_of_string "JoAnn42") -> is_alnum c = true).
  { intros c Hc. cbn in Hc.
    repeat (destruct Hc as [<- | Hc]; [reflexivity|]). destruct Hc. }
  split; [exact H|]. split; [|reflexivity].
  exact (proj2 (proj2 (sanitize_name_safe "JoAnn42")) H).
Defined.

(** A submission refused with 403 and a plain-text body. *)
Definition forbidden_response : response :=
  mkResponse 403 "Forbidden" "Forbidden" None [] None.

Lemma requestFaceSwap_rejections_shown_witness :
  server (sample_world (Received forbidden_response)) 0 (PostFaceSwap "a" "b")
    = (250%Q, Received forbidden_response)
  /\ res_ok forbidden_response = false
  /\ includes "Face swap" "Forbidden" = false /\ includes "upload" "Forbidden" = false
  /\ includes "validation" "Forbidden" = false /\ includes "database" "Forbidden" = false
  /\ exists e,
       fst (requestFaceSwap "a" "b" (sample_world (Received forbidden_response))) = Err e
       /\ userErrorMessage (err_message e) = "An unexpected error occurred during processing.".
Proof.
  do 6 (split; [reflexivity|]).
  exact (requestFaceSwap_rejections_shown "a" "b" (sample_world (Received forbidden_response))
           250%Q forbidden_response eq_refl eq_refl eq_refl eq_refl eq_refl eq_refl).
Defined.
